(** * teahaz.client: a shallow embedding of the Teahaz API wrapper

    The development follows [teahaz/client.py].  Python objects that come
    from the server are dynamically typed, so they are kept as values of
    one universal type [pyval]; the mutable [Chatroom] is threaded
    explicitly, together with a [World] that records what the program did
    to its surroundings (HTTP calls issued, callbacks invoked, threads
    started).  An exception leaves the mutations done before it in place,
    so every method returns the state also when it raises. *)

From Stdlib Require Import ZArith List String Ascii Bool Lia DecimalString.
Import ListNotations.
Local Open Scope string_scope.
Local Open Scope Z_scope.
Set Warnings "-register-all".

(** ** Python values *)

Module Py.

(** The values the client handles: what [json.loads] gives back, the
    [bytes] a caller may send, and [Channel] instances (a dataclass with
    four fields).  A dict keeps its items in insertion order. *)
Inductive pyval : Type :=
| PNone
| PBool (b : bool)
| PInt (z : Z)
| PStr (s : string)
| PBytes (b : string)
| PList (l : list pyval)
| PDict (d : list (string * pyval))
| PChannel (uid name public permissions : pyval).

(** The exceptions that reach a caller.  [RuntimeError] keeps the parts of
    the message [_request] formats into it; [Transport] is whatever the
    HTTP layer raised. *)
Inductive exn : Type :=
| AttributeError (attr : string)
| ValueError (msg : string)
| KeyError (key : string)
| IndexError (msg : string)
| TypeError (msg : string)
| AssertionError (msg : string)
| RuntimeError (method_upper : string) (status_code : Z) (text : string)
| Transport (what : string).

Inductive outcome (A : Type) : Type :=
| Return (a : A)
| Raise (e : exn).
Arguments Return {A} a.
Arguments Raise {A} e.

Definition is_none (v : pyval) : bool :=
  match v with PNone => true | _ => false end.

(** [bool(v)], as [assert] evaluates it. *)
Definition truthy (v : pyval) : bool :=
  match v with
  | PNone => false
  | PBool b => b
  | PInt z => negb (z =? 0)
  | PStr s => negb (String.eqb s "")
  | PBytes b => negb (String.eqb b "")
  | PList l => match l with [] => false | _ => true end
  | PDict d => match d with [] => false | _ => true end
  | PChannel _ _ _ _ => true
  end.

Fixpoint dict_get (key : string) (d : list (string * pyval)) : option pyval :=
  match d with
  | [] => None
  | (k, v) :: rest => if String.eqb k key then Some v else dict_get key rest
  end.

(** [data[key]] with a string key. *)
Definition getitem (data : pyval) (key : string) : outcome pyval :=
  match data with
  | PDict d =>
      match dict_get key d with
      | Some v => Return v
      | None => Raise (KeyError key)
      end
  | PStr _ => Raise (TypeError "string indices must be integers")
  | PBytes _ => Raise (TypeError "byte indices must be integers or slices, not str")
  | PList _ => Raise (TypeError "list indices must be integers or slices, not str")
  | PNone => Raise (TypeError "'NoneType' object is not subscriptable")
  | PBool _ => Raise (TypeError "'bool' object is not subscriptable")
  | PInt _ => Raise (TypeError "'int' object is not subscriptable")
  | PChannel _ _ _ _ => Raise (TypeError "'Channel' object is not subscriptable")
  end.

Fixpoint chars (s : string) : list pyval :=
  match s with
  | EmptyString => []
  | String c rest => PStr (String c EmptyString) :: chars rest
  end.

Fixpoint bytes_items (s : string) : list pyval :=
  match s with
  | EmptyString => []
  | String c rest => PInt (Z.of_nat (nat_of_ascii c)) :: bytes_items rest
  end.

(** What [for data in v] walks through. *)
Definition iter (v : pyval) : outcome (list pyval) :=
  match v with
  | PList l => Return l
  | PDict d => Return (map (fun kv => PStr (fst kv)) d)
  | PStr s => Return (chars s)
  | PBytes b => Return (bytes_items b)
  | PNone => Raise (TypeError "'NoneType' object is not iterable")
  | PBool _ => Raise (TypeError "'bool' object is not iterable")
  | PInt _ => Raise (TypeError "'int' object is not iterable")
  | PChannel _ _ _ _ => Raise (TypeError "'Channel' object is not iterable")
  end.

(** [a == b].  A bool compares as the integer it is, two dicts are equal
    when they hold the same items in any order, a dataclass instance is
    equal to another one of its class with equal fields. *)
Fixpoint py_eq (a b : pyval) {struct a} : bool :=
  match a, b with
  | PNone, PNone => true
  | PBool x, PBool y => Bool.eqb x y
  | PBool x, PInt z => (if x then 1 else 0) =? z
  | PInt z, PBool x => z =? (if x then 1 else 0)
  | PInt x, PInt y => x =? y
  | PStr x, PStr y => String.eqb x y
  | PBytes x, PBytes y => String.eqb x y
  | PList l1, PList l2 =>
      (fix eq_list (l1 l2 : list pyval) {struct l1} : bool :=
         match l1, l2 with
         | [], [] => true
         | x :: r1, y :: r2 => py_eq x y && eq_list r1 r2
         | _, _ => false
         end) l1 l2
  | PDict d1, PDict d2 =>
      (List.length d1 =? List.length d2)%nat &&
      (fix eq_items (d : list (string * pyval)) {struct d} : bool :=
         match d with
         | [] => true
         | (k, v) :: rest =>
             match dict_get k d2 with
             | Some v' => py_eq v v' && eq_items rest
             | None => false
             end
         end) d1
  | PChannel u1 n1 p1 m1, PChannel u2 n2 p2 m2 =>
      py_eq u1 u2 && py_eq n1 n2 && py_eq p1 p2 && py_eq m1 m2
  | _, _ => false
  end.

(** [in] on a list: some item equals the value. *)
Definition contains (l : list pyval) (v : pyval) : bool :=
  existsb (fun item => py_eq item v) l.

(** *** [str()] and [str.format] *)

Definition has_char (c : ascii) (s : string) : bool :=
  existsb (Ascii.eqb c) (list_ascii_of_string s).

Definition squote : ascii := "039"%char.
Definition dquote : ascii := "034"%char.
Definition backslash : ascii := "092"%char.

Fixpoint escape (quote : ascii) (s : string) : string :=
  match s with
  | EmptyString => EmptyString
  | String c rest =>
      if Ascii.eqb c backslash
      then String backslash (String backslash (escape quote rest))
      else if Ascii.eqb c quote
      then String backslash (String c (escape quote rest))
      else if Ascii.eqb c "010"
      then String backslash (String "n" (escape quote rest))
      else if Ascii.eqb c "013"
      then String backslash (String "r" (escape quote rest))
      else if Ascii.eqb c "009"
      then String backslash (String "t" (escape quote rest))
      else String c (escape quote rest)
  end.

(** [repr] of a string: single quotes, unless it holds a single quote and
    no double quote.  Other control characters and non-ASCII text are left
    as they are; no property below looks at the [repr] of a string. *)
Definition repr_str (s : string) : string :=
  if has_char squote s && negb (has_char dquote s)
  then String dquote (escape dquote s) ++ String dquote EmptyString
  else String squote (escape squote s) ++ String squote EmptyString.

Definition repr_int (z : Z) : string := NilZero.string_of_int (Z.to_int z).

Fixpoint repr (v : pyval) : string :=
  match v with
  | PNone => "None"
  | PBool true => "True"
  | PBool false => "False"
  | PInt z => repr_int z
  | PStr s => repr_str s
  | PBytes b => "b" ++ repr_str b
  | PList l =>
      "[" ++
      (fix items (l : list pyval) : string :=
         match l with
         | [] => ""
         | [x] => repr x
         | x :: rest => repr x ++ ", " ++ items rest
         end) l ++ "]"
  | PDict d =>
      "{" ++
      (fix items (d : list (string * pyval)) : string :=
         match d with
         | [] => ""
         | [(k, x)] => repr_str k ++ ": " ++ repr x
         | (k, x) :: rest => repr_str k ++ ": " ++ repr x ++ ", " ++ items rest
         end) d ++ "}"
  | PChannel u n p m =>
      "Channel(uid=" ++ repr u ++ ", name=" ++ repr n ++
      ", public=" ++ repr p ++ ", permissions=" ++ repr m ++ ")"
  end.

(** [str(v)], which is what [str.format] puts in place of a field. *)
Definition str (v : pyval) : string :=
  match v with
  | PStr s => s
  | _ => repr v
  end.

(** [str.format] with keyword arguments, for templates whose fields are
    plain names.  [{{] and [}}] stand for one brace; a field that no
    keyword argument answers raises [KeyError], an empty or numbered one
    [IndexError], a lone brace and an unfinished field [ValueError].  The
    text put in for a field is not read again.  Conversions ([!r]), format
    specifications ([:>8]) and attribute or index access inside a field
    are outside this model: such a field is looked up under its whole text
    and raises. *)
Definition is_digit (c : ascii) : bool :=
  match c with
  | "0" | "1" | "2" | "3" | "4" | "5" | "6" | "7" | "8" | "9" => true
  | _ => false
  end%char.

(** An empty field or a number asks for a positional argument, and
    [format] is given none. *)
Definition is_index (name : string) : bool :=
  forallb is_digit (list_ascii_of_string name).

Inductive format_mode : Type :=
| Lit
| SeenOpen
| SeenClose
| InField (name : string).

Fixpoint format_from (mode : format_mode) (template : string)
    (kwargs : list (string * pyval)) {struct template} : outcome string :=
  match template with
  | EmptyString =>
      match mode with
      | Lit => Return EmptyString
      | SeenOpen => Raise (ValueError "Single '{' encountered in format string")
      | SeenClose => Raise (ValueError "Single '}' encountered in format string")
      | InField _ => Raise (ValueError "expected '}' before end of string")
      end
  | String c rest =>
      let literal ch :=
        match format_from Lit rest kwargs with
        | Return out => Return (String ch out)
        | Raise e => Raise e
        end in
      let field name :=
        if is_index name
        then Raise (IndexError "Replacement index out of range for positional args tuple")
        else
          match dict_get name kwargs with
          | Some v =>
              match format_from Lit rest kwargs with
              | Return out => Return (str v ++ out)
              | Raise e => Raise e
              end
          | None => Raise (KeyError name)
          end in
      match mode with
      | Lit =>
          if Ascii.eqb c "{" then format_from SeenOpen rest kwargs
          else if Ascii.eqb c "}" then format_from SeenClose rest kwargs
          else literal c
      | SeenOpen =>
          if Ascii.eqb c "{" then literal c
          else if Ascii.eqb c "}" then field EmptyString
          else format_from (InField (String c EmptyString)) rest kwargs
      | SeenClose =>
          if Ascii.eqb c "}" then literal c
          else Raise (ValueError "Single '}' encountered in format string")
      | InField name =>
          if Ascii.eqb c "}" then field name
          else if Ascii.eqb c "{"
          then Raise (ValueError "unexpected '{' in field name")
          else format_from (InField (name ++ String c EmptyString)) rest kwargs
      end
  end.

Definition format (template : string) (kwargs : list (string * pyval))
  : outcome string :=
  format_from Lit template kwargs.

(** [s.upper()] on ASCII letters. *)
Definition upper_char (c : ascii) : ascii :=
  let n := nat_of_ascii c in
  if ((97 <=? n) && (n <=? 122))%nat then ascii_of_nat (n - 32) else c.

Fixpoint upper (s : string) : string :=
  match s with
  | EmptyString => EmptyString
  | String c rest => String (upper_char c) (upper rest)
  end.

End Py.
Import Py.

(** ** Events *)

Inductive Event : Type :=
| ERROR
| MSG_NEW
| MSG_DEL
| MSG_SYS
| MSG_SENT
| USER_JOIN
| USER_LEAVE
| SERVER_INFO
| MSG_SYS_SILENT
| NETWORK_EXCEPTION.

Definition Event_eqb (a b : Event) : bool :=
  match a, b with
  | ERROR, ERROR | MSG_NEW, MSG_NEW | MSG_DEL, MSG_DEL | MSG_SYS, MSG_SYS
  | MSG_SENT, MSG_SENT | USER_JOIN, USER_JOIN | USER_LEAVE, USER_LEAVE
  | SERVER_INFO, SERVER_INFO | MSG_SYS_SILENT, MSG_SYS_SILENT
  | NETWORK_EXCEPTION, NETWORK_EXCEPTION => true
  | _, _ => false
  end.

(** ** The HTTP session *)

(** Keyword arguments of a request.  Every call of the client gives [url];
    [headers] and [json] are given by some. *)
Module ReqArgs.

Record t : Type := {
  url : string;
  headers : option pyval;
  json : option pyval;
}.

End ReqArgs.

(** A [requests.Response], as far as the client looks at it.  Decoding the
    body belongs to the transport: [body] is what [response.json()]
    gives. *)
Record Response : Type := {
  status_code : Z;
  text : string;
  body : pyval;
}.

Inductive reply : Type :=
| Responds (response : Response)
| Throws (exception : exn).

(** What [getattr(session, method_name)] finds.  A method answers a call
    with a response or raises; its answer may depend on how many calls
    were made before.  (An attribute that cannot be called behaves as a
    method that raises [TypeError].) *)
Inductive attribute : Type :=
| AttrMissing
| AttrNone
| AttrMethod (method : nat -> ReqArgs.t -> reply).

(** An attribute of the session that is no method, such as
    [session.headers]: calling it raises [TypeError]. *)
Definition not_callable (type_name : string) : attribute :=
  AttrMethod (fun _ _ =>
    Throws (TypeError ("'" ++ type_name ++ "' object is not callable"))).

Definition Session : Type := string -> attribute.

(** ** Callbacks and listeners *)

(** What a callback is called with: the two handlers of [_request] get
    the response or the exception with the method name and the request
    arguments, a listener called by [_notify] gets the data. *)
Inductive arguments : Type :=
| ErrorArgs (response : Response) (method_name : string) (req_args : ReqArgs.t)
| ExceptionArgs (exception : exn) (method_name : string) (req_args : ReqArgs.t)
| NotifyArgs (data : list pyval).

(** A callback is a function value of the caller; the client only stores
    it and calls it.  It is known here by a name and by how a call of it
    ends for the arguments it is given: it returns ([None] here; no
    caller looks at the value returned), or it raises. *)
Record callback : Type := {
  label : nat;
  ends : arguments -> option exn;
}.

(** [dict[Event, EventCallback]], in insertion order. *)
Definition listeners : Type := list (Event * callback).

Fixpoint listeners_get (d : listeners) (event : Event) : option callback :=
  match d with
  | [] => None
  | (e, cb) :: rest => if Event_eqb e event then Some cb else listeners_get rest event
  end.

Fixpoint listeners_set (d : listeners) (event : Event) (cb : callback) : listeners :=
  match d with
  | [] => [(event, cb)]
  | (e, old) :: rest =>
      if Event_eqb e event then (e, cb) :: rest
      else (e, old) :: listeners_set rest event cb
  end.

(** ** The world around the client *)

(** A call of a callback, as the world records it. *)
Inductive invocation : Type :=
| ErrorCall (handler : callback) (response : Response)
    (method_name : string) (req_args : ReqArgs.t)
| ExceptionCall (handler : callback) (exception : exn)
    (method_name : string) (req_args : ReqArgs.t)
| NotifyCall (handler : callback) (data : list pyval).

(** How the call ends: [None] when the callback returns, the exception
    when it raises. *)
Definition raised (i : invocation) : option exn :=
  match i with
  | ErrorCall handler response method_name req_args =>
      ends handler (ErrorArgs response method_name req_args)
  | ExceptionCall handler exception method_name req_args =>
      ends handler (ExceptionArgs exception method_name req_args)
  | NotifyCall handler data => ends handler (NotifyArgs data)
  end.

Record World : Type := {
  calls : list (string * ReqArgs.t);
  invoked : list invocation;
  threads : list pyval;
}.

Definition world0 : World := {| calls := []; invoked := []; threads := [] |}.

(** ** EndpointContainer *)

Module EndpointContainer.

Definition _items : list (string * string) := [
  ("base", "{url}/api/v0");
  ("login", "{base}/login/{chatroom_id}");
  ("chatroom", "{base}/chatroom");
  ("files", "{base}/files/{chatroom_id}");
  ("messages", "{base}/messages/{chatroom_id}");
  ("channels", "{base}/channels/{chatroom_id}")
].

Record t : Type := {
  _url : pyval;
  _uid : pyval;
}.

Definition __init__ (url : string) (uid : pyval) : t :=
  {| _url := PStr url; _uid := uid |}.

(** [set]: the key is checked against [dir(self)].  Of the names found
    there, [_uid] and [_url] are the configuration of the object and are
    the ones modelled; every other key is reported as invalid. *)
Definition set (self : t) (item : string) (value : pyval) : outcome t :=
  let item := "_" ++ item in
  if String.eqb item "_uid" then Return {| _url := _url self; _uid := value |}
  else if String.eqb item "_url" then Return {| _url := value; _uid := _uid self |}
  else Raise (KeyError ("Invalid setter key " ++ item ++ ".")).

Fixpoint items_get (item : string) (d : list (string * string)) : outcome string :=
  match d with
  | [] => Raise (KeyError item)
  | (k, v) :: rest => if String.eqb k item then Return v else items_get item rest
  end.

Definition base (self : t) : outcome string :=
  match items_get "base" _items with
  | Return template => format template [("url", _url self)]
  | Raise e => Raise e
  end.

Definition __getattr__ (self : t) (item : string) : outcome string :=
  if String.eqb item "base" then base self
  else
    match items_get item _items with
    | Raise e => Raise e
    | Return template =>
        match base self with
        | Raise e => Raise e
        | Return b =>
            format template
              [("url", _url self); ("base", PStr b); ("chatroom_id", _uid self)]
        end
    end.

End EndpointContainer.

(** ** Channel *)

Module Channel.

Record t : Type := {
  uid : pyval;
  name : pyval;
  public : pyval;
  permissions : pyval;
}.

Definition to_val (c : t) : pyval :=
  PChannel (uid c) (name c) (public c) (permissions c).

Definition from_dict (data : pyval) : outcome t :=
  match getitem data "channelID" with
  | Raise e => Raise e
  | Return u =>
  match getitem data "channel_name" with
  | Raise e => Raise e
  | Return n =>
  match getitem data "public" with
  | Raise e => Raise e
  | Return p =>
  match getitem data "permissions" with
  | Raise e => Raise e
  | Return m => Return {| uid := u; name := n; public := p; permissions := m |}
  end end end end.

(** The [__eq__] the dataclass generates: all four fields. *)
Definition eqb (a b : t) : bool := py_eq (to_val a) (to_val b).

(** [channel in channels] *)
Definition member (channel : t) (channels : list t) : bool :=
  existsb (fun item => eqb item channel) channels.

End Channel.

(** ** User *)

Module User.

Record t : Type := {
  uid : pyval;
  username : pyval;
  color : pyval;
}.

Definition from_dict (data : pyval) : outcome t :=
  match getitem data "userID" with
  | Raise e => Raise e
  | Return u =>
  match getitem data "username" with
  | Raise e => Raise e
  | Return n =>
  match getitem data "color" with
  | Raise e => Raise e
  | Return c => Return {| uid := u; username := n; color := c |}
  end end end.

Definition type_name (v : pyval) : string :=
  match v with
  | PNone => "NoneType"
  | PBool _ => "bool"
  | PInt _ => "int"
  | PStr _ => "str"
  | PBytes _ => "bytes"
  | PList _ => "list"
  | PDict _ => "dict"
  | PChannel _ _ _ _ => "Channel"
  end.

(** [v.values()]: only a dict has it. *)
Definition values (v : pyval) : outcome (list pyval) :=
  match v with
  | PDict d => Return (map snd d)
  | _ => Raise (AttributeError
                  ("'" ++ type_name v ++ "' object has no attribute 'values'"))
  end.

(** [sep.join(items)] first looks at every item, from item [i] on here:
    the first that is not a [str] is reported with its place. *)
Fixpoint join_items (i : nat) (items : list pyval) : outcome (list string) :=
  match items with
  | [] => Return []
  | PStr s :: rest =>
      match join_items (S i) rest with
      | Return l => Return (s :: l)
      | Raise e => Raise e
      end
  | v :: _ =>
      Raise (TypeError
               ("sequence item " ++ NilZero.string_of_uint (Nat.to_uint i)
                ++ ": expected str instance, " ++ type_name v ++ " found"))
  end.

Definition join (sep : string) (items : list pyval) : outcome string :=
  match join_items 0 items with
  | Return l => Return (String.concat sep l)
  | Raise e => Raise e
  end.

Definition get_color (self : t) : outcome string :=
  match values (color self) with
  | Raise e => Raise e
  | Return vs => join ";" vs
  end.

End User.

(** ** Chatroom *)

Module Chatroom.

Record t : Type := {
  uid : pyval;
  url : string;
  name : pyval;
  interval : Z;
  user_id : pyval;
  session : Session;
  active_channel : option Channel.t;
  channels : list Channel.t;
  endpoints : EndpointContainer.t;
  _listeners : listeners;
  _is_looping : bool;
}.

(** [Chatroom(url, uid, name, session)]; the arguments left out are
    [None], and [session] is the one given or a new [requests.Session()]. *)
Definition __init__ (url : string) (uid name : pyval) (session : Session) : t :=
  {| uid := uid;
     url := url;
     name := name;
     interval := 1;
     user_id := PNone;
     session := session;
     active_channel := None;
     channels := [];
     endpoints := EndpointContainer.__init__ url uid;
     _listeners := [];
     _is_looping := false |}.

Definition set_name (v : pyval) (c : t) : t :=
  {| uid := uid c; url := url c; name := v; interval := interval c;
     user_id := user_id c; session := session c;
     active_channel := active_channel c; channels := channels c;
     endpoints := endpoints c; _listeners := _listeners c;
     _is_looping := _is_looping c |}.

Definition set_uid (v : pyval) (c : t) : t :=
  {| uid := v; url := url c; name := name c; interval := interval c;
     user_id := user_id c; session := session c;
     active_channel := active_channel c; channels := channels c;
     endpoints := endpoints c; _listeners := _listeners c;
     _is_looping := _is_looping c |}.

Definition set_user_id (v : pyval) (c : t) : t :=
  {| uid := uid c; url := url c; name := name c; interval := interval c;
     user_id := v; session := session c;
     active_channel := active_channel c; channels := channels c;
     endpoints := endpoints c; _listeners := _listeners c;
     _is_looping := _is_looping c |}.

Definition set_active_channel (v : option Channel.t) (c : t) : t :=
  {| uid := uid c; url := url c; name := name c; interval := interval c;
     user_id := user_id c; session := session c;
     active_channel := v; channels := channels c;
     endpoints := endpoints c; _listeners := _listeners c;
     _is_looping := _is_looping c |}.

Definition set_channels (v : list Channel.t) (c : t) : t :=
  {| uid := uid c; url := url c; name := name c; interval := interval c;
     user_id := user_id c; session := session c;
     active_channel := active_channel c; channels := v;
     endpoints := endpoints c; _listeners := _listeners c;
     _is_looping := _is_looping c |}.

Definition set_endpoints (v : EndpointContainer.t) (c : t) : t :=
  {| uid := uid c; url := url c; name := name c; interval := interval c;
     user_id := user_id c; session := session c;
     active_channel := active_channel c; channels := channels c;
     endpoints := v; _listeners := _listeners c;
     _is_looping := _is_looping c |}.

Definition set_listeners (v : listeners) (c : t) : t :=
  {| uid := uid c; url := url c; name := name c; interval := interval c;
     user_id := user_id c; session := session c;
     active_channel := active_channel c; channels := channels c;
     endpoints := endpoints c; _listeners := v;
     _is_looping := _is_looping c |}.

(** *** Methods as state transformers

    A method takes the chatroom and the world and gives back what it
    returned or raised, with the chatroom and the world as it left
    them. *)
Definition M (A : Type) : Type := t -> World -> outcome A * t * World.

Definition ret {A} (a : A) : M A := fun self w => (Return a, self, w).

Definition raise {A} (e : exn) : M A := fun self w => (Raise e, self, w).

Definition bind {A B} (m : M A) (k : A -> M B) : M B :=
  fun self w =>
    match m self w with
    | (Return a, self', w') => k a self' w'
    | (Raise e, self', w') => (Raise e, self', w')
    end.

Notation "x <- m ;; k" := (bind m (fun x => k))
  (at level 61, m at next level, right associativity).
Notation "m ;;; k" := (bind m (fun _ => k))
  (at level 61, right associativity).

Definition get : M t := fun self w => (Return self, self, w).

Definition modify (f : t -> t) : M unit := fun self w => (Return tt, f self, w).

Definition lift {A} (o : outcome A) : M A := fun self w => (o, self, w).

(** Calling a method of the session: the call is recorded, and the method
    answers according to the number of calls before this one. *)
Definition call (method : nat -> ReqArgs.t -> reply) (method_name : string)
    (req_args : ReqArgs.t) : M reply :=
  fun self w =>
    (Return (method (List.length (calls w)) req_args), self,
     {| calls := calls w ++ [(method_name, req_args)];
        invoked := invoked w;
        threads := threads w |}).

(** Calling a callback: the call is recorded, and it returns or raises as
    the callback does.  Every call of a callback in the client is outside
    any [try], so what the callback raises leaves the method. *)
Definition invoke (i : invocation) : M unit :=
  fun self w =>
    (match raised i with
     | None => Return tt
     | Some e => Raise e
     end, self,
     {| calls := calls w; invoked := invoked w ++ [i]; threads := threads w |}).

Definition start_thread (thread_name : pyval) : M unit :=
  fun self w =>
    (Return tt, self,
     {| calls := calls w; invoked := invoked w;
        threads := threads w ++ [thread_name] |}).

Definition no_method_message (method_name : string) : string :=
  "Session does not have a method for " ++
  String dquote method_name ++ String dquote ".".

Definition _request (method_name : string) (req_args : ReqArgs.t) : M pyval :=
  self <- get ;;
  match session self method_name with
  | AttrMissing => raise (AttributeError method_name)
  | AttrNone => raise (ValueError (no_method_message method_name))
  | AttrMethod method =>
      let error_handler := listeners_get (_listeners self) ERROR in
      let exception_handler := listeners_get (_listeners self) NETWORK_EXCEPTION in
      answer <- call method method_name req_args ;;
      match answer with
      | Throws exception =>
          match exception_handler with
          | Some handler =>
              invoke (ExceptionCall handler exception method_name req_args) ;;;
              ret PNone
          | None => raise exception
          end
      | Responds response =>
          if status_code response =? 200 then ret (body response)
          else
            match error_handler with
            | Some handler =>
                invoke (ErrorCall handler response method_name req_args) ;;;
                ret PNone
            | None =>
                raise (RuntimeError (upper method_name)
                         (status_code response) (text response))
            end
      end
  end.

Definition _notify (event : Event) (data : list pyval) : M unit :=
  self <- get ;;
  match listeners_get (_listeners self) event with
  | None => ret tt
  | Some handler => invoke (NotifyCall handler data)
  end.

(** [_run] starts a thread named after the chatroom; the thread runs the
    monitoring loop, whose batch of messages is always empty. *)
Definition _run : M unit :=
  self <- get ;;
  start_thread (uid self).

(** The body of the [for data in channels] loop, for the items left. *)
Fixpoint ingest (items : list pyval) : M unit :=
  match items with
  | [] => ret tt
  | data :: rest =>
      channel <- lift (Channel.from_dict data) ;;
      self <- get ;;
      (if negb (Channel.member channel (channels self))
       then modify (set_channels (channels self ++ [channel]))
       else ret tt) ;;;
      ingest rest
  end.

(** The second half of [_update_channels], once [channels] is known: the
    loop over it, then the choice of the active channel. *)
Definition update_from (channels_arg : pyval) : M pyval :=
  items <- lift (iter channels_arg) ;;
  ingest items ;;;
  self <- get ;;
  match active_channel self, channels self with
  | None, first :: _ =>
      modify (set_active_channel (Some first)) ;;; ret PNone
  | _, _ => ret PNone
  end.

Definition _update_channels (channels_arg : pyval) : M pyval :=
  self <- get ;;
  if negb (truthy (user_id self))
  then raise (AssertionError "Please log in before getting channels!")
  else
    if is_none channels_arg then
      endpoint <- lift (EndpointContainer.__getattr__ (endpoints self) "channels") ;;
      fetched <- _request "get"
        {| ReqArgs.url := endpoint;
           ReqArgs.headers := Some (PDict [("userID", user_id self)]);
           ReqArgs.json := None |} ;;
      if is_none fetched then ret PNone else update_from fetched
    else update_from channels_arg.

Definition subscribe (event : Event) (cb : callback) : M unit :=
  self <- get ;;
  modify (set_listeners (listeners_set (_listeners self) event cb)) ;;;
  self <- get ;;
  if negb (_is_looping self) &&
     negb (existsb (Event_eqb event) [ERROR; NETWORK_EXCEPTION])
  then _run
  else ret tt.

Definition create (username password : string) : M pyval :=
  self <- get ;;
  let data := PDict [("chatroom_name", name self);
                     ("username", PStr username);
                     ("password", PStr password)] in
  endpoint <- lift (EndpointContainer.__getattr__ (endpoints self) "chatroom") ;;
  response <- _request "post"
    {| ReqArgs.url := endpoint;
       ReqArgs.headers := Some (PDict [("Content-Type", PStr "application/json")]);
       ReqArgs.json := Some data |} ;;
  if is_none response then ret PNone
  else
    v <- lift (getitem response "chatroom_name") ;;
    modify (set_name v) ;;;
    v <- lift (getitem response "chatroomID") ;;
    modify (set_uid v) ;;;
    v <- lift (getitem response "userID") ;;
    modify (set_user_id v) ;;;
    self <- get ;;
    e <- lift (EndpointContainer.set (endpoints self) "uid" (uid self)) ;;
    modify (set_endpoints e) ;;;
    v <- lift (getitem response "channels") ;;
    _update_channels v ;;;
    ret PNone.

(** [create_channel] returns the channel, or [None]. *)
Definition create_channel (channel_name : string) : M (option Channel.t) :=
  self <- get ;;
  let data := PDict [("userID", user_id self);
                     ("channel_name", PStr channel_name)] in
  endpoint <- lift (EndpointContainer.__getattr__ (endpoints self) "channels") ;;
  response <- _request "post"
    {| ReqArgs.url := endpoint;
       ReqArgs.headers := None;
       ReqArgs.json := Some data |} ;;
  if is_none response then ret None
  else
    channel <- lift (Channel.from_dict response) ;;
    _update_channels (PList [Channel.to_val channel]) ;;;
    ret (Some channel).

Definition login (user_id password : string) : M pyval :=
  self <- get ;;
  let data := PDict [("userID", PStr user_id);
                     ("password", PStr password)] in
  endpoint <- lift (EndpointContainer.__getattr__ (endpoints self) "login") ;;
  response <- _request "post"
    {| ReqArgs.url := endpoint;
       ReqArgs.headers := None;
       ReqArgs.json := Some data |} ;;
  modify (set_user_id (PStr user_id)) ;;;
  _update_channels PNone ;;;
  ret response.

Definition missing_channel_message : string :=
  "Please use either the Chatroom.set_channel() function" ++
  " or provide `channel` as a non-null value!".

Definition get_messages (channel : option Channel.t) (count time : pyval)
  : M pyval :=
  match channel with
  | Some given =>
      modify (set_active_channel (Some given)) ;;;
      let headers := PDict [("channelID", Channel.uid given);
                            ("count", count);
                            ("time", time)] in
      self <- get ;;
      endpoint <- lift (EndpointContainer.__getattr__ (endpoints self) "messages") ;;
      _request "get"
        {| ReqArgs.url := endpoint;
           ReqArgs.headers := Some headers;
           ReqArgs.json := None |}
  | None =>
      self <- get ;;
      match active_channel self with
      | None => raise (ValueError missing_channel_message)
      | Some _ => raise (ValueError "No channel was provided.")
      end
  end.

(** What [send] is given to send: text or bytes. *)
Inductive content : Type :=
| Text (s : string)
| Bytes (b : string).

Definition content_val (c : content) : pyval :=
  match c with
  | Text s => PStr s
  | Bytes b => PBytes b
  end.

Definition send (data : content) (channel : option Channel.t)
    (reply_id : pyval) : M pyval :=
  (match channel with
   | Some given => modify (set_active_channel (Some given))
   | None =>
       self <- get ;;
       match active_channel self with
       | None => raise (ValueError missing_channel_message)
       | Some _ => ret tt
       end
   end) ;;;
  self <- get ;;
  endpoint <- lift (EndpointContainer.__getattr__ (endpoints self)
                      (match data with
                       | Bytes _ => "files"
                       | Text _ => "messages"
                       end)) ;;
  match active_channel self with
  | None => raise (AttributeError "uid")
  | Some active =>
      let msg := PDict [("userID", user_id self);
                        ("channelID", Channel.uid active);
                        ("replyID", reply_id);
                        ("data", content_val data)] in
      formatted <- lift (format endpoint [("chatroom_id", uid self)]) ;;
      _request "post"
        {| ReqArgs.url := url self ++ formatted;
           ReqArgs.headers := None;
           ReqArgs.json := Some msg |}
  end.

End Chatroom.

(** ** Teacup *)

Module Teacup.

Record t : Type := {
  chatrooms : list Chatroom.t;
  _global_listeners : listeners;
}.

Definition __init__ : t := {| chatrooms := []; _global_listeners := [] |}.

(** [for event, callback in items: chat.subscribe(event, callback)] *)
Fixpoint subscribe_each (items : listeners) : Chatroom.M unit :=
  match items with
  | [] => Chatroom.ret tt
  | (event, cb) :: rest =>
      Chatroom.bind (Chatroom.subscribe event cb) (fun _ => subscribe_each rest)
  end.

(** [login] builds the chatroom and works on it; the result is what was
    returned or raised, the chatroom as the call left it, and the world.
    [session] is the [requests.Session()] the new chatroom makes. *)
Definition login (self : t) (session : Session)
    (username password chatroom url : string) (w : World)
  : outcome Chatroom.t * Chatroom.t * World :=
  let chat := Chatroom.__init__ url (PStr chatroom) PNone session in
  match subscribe_each (_global_listeners self) chat w with
  | (Raise e, chat, w) => (Raise e, chat, w)
  | (Return _, chat, w) =>
      match Chatroom.login username password chat w with
      | (Raise e, chat, w) => (Raise e, chat, w)
      | (Return _, chat, w) => (Return chat, chat, w)
      end
  end.

Fixpoint get_chatroom (rooms : list Chatroom.t) (name : string)
  : option Chatroom.t :=
  match rooms with
  | [] => None
  | chatroom :: rest =>
      if py_eq (Chatroom.name chatroom) (PStr name) then Some chatroom
      else get_chatroom rest name
  end.

(** [create_chatroom] returns [chat], or [None]. *)
Definition create_chatroom (self : t) (session : Session)
    (url name username password : string) (w : World)
  : outcome (option Chatroom.t) * Chatroom.t * World :=
  let chat := Chatroom.__init__ url PNone (PStr name) session in
  match subscribe_each (_global_listeners self) chat w with
  | (Raise e, chat, w) => (Raise e, chat, w)
  | (Return _, chat, w) =>
      match Chatroom.create username password chat w with
      | (Raise e, chat, w) => (Raise e, chat, w)
      | (Return response, chat, w) =>
          if is_none response then (Return None, chat, w)
          else (Return (Some chat), chat, w)
      end
  end.

(** [for chatroom in self.chatrooms: chatroom.subscribe(event, callback)] *)
Fixpoint subscribe_rooms (rooms : list Chatroom.t) (event : Event)
    (cb : callback) (w : World) : list Chatroom.t * World :=
  match rooms with
  | [] => ([], w)
  | chatroom :: rest =>
      let '(_, chatroom', w') := Chatroom.subscribe event cb chatroom w in
      let '(rest', w'') := subscribe_rooms rest event cb w' in
      (chatroom' :: rest', w'')
  end.

Definition subscribe_all (self : t) (event : Event) (cb : callback) (w : World)
  : t * World :=
  let '(rooms, w') := subscribe_rooms (chatrooms self) event cb w in
  ({| chatrooms := rooms;
      _global_listeners := listeners_set (_global_listeners self) event cb |},
   w').

End Teacup.


(** ** Sequences of calls on one chatroom

    A caller that goes on after a call raised works with the chatroom as
    the call left it. *)

Module Run.

Inductive op : Type :=
| Create (username password : string)
| CreateChannel (channel_name : string)
| Login (user_id password : string)
| GetMessages (channel : option Channel.t) (count time : pyval)
| Send (data : Chatroom.content) (channel : option Channel.t) (reply_id : pyval)
| UpdateChannels (channels : pyval)
| Subscribe (event : Event) (cb : callback).

Definition after {A} (r : outcome A * Chatroom.t * World) : Chatroom.t * World :=
  (snd (fst r), snd r).

Definition step (o : op) (self : Chatroom.t) (w : World) : Chatroom.t * World :=
  match o with
  | Create username password => after (Chatroom.create username password self w)
  | CreateChannel channel_name => after (Chatroom.create_channel channel_name self w)
  | Login user_id password => after (Chatroom.login user_id password self w)
  | GetMessages channel count time =>
      after (Chatroom.get_messages channel count time self w)
  | Send data channel reply_id => after (Chatroom.send data channel reply_id self w)
  | UpdateChannels channels => after (Chatroom._update_channels channels self w)
  | Subscribe event cb => after (Chatroom.subscribe event cb self w)
  end.

Fixpoint run (ops : list op) (self : Chatroom.t) (w : World) : Chatroom.t * World :=
  match ops with
  | [] => (self, w)
  | o :: rest => let '(self', w') := step o self w in run rest self' w'
  end.

(** The channel a call names itself, if it names one. *)
Definition given (o : op) : option Channel.t :=
  match o with
  | GetMessages channel _ _ => channel
  | Send _ channel _ => channel
  | _ => None
  end.

End Run.

(** ** Sessions and server answers used in the examples below *)

Module Mock.

Definition ok (body : pyval) : reply :=
  Responds {| status_code := 200; text := ""; body := body |}.

Definition not_found : Response :=
  {| status_code := 404; text := "Not Found"; body := PNone |}.

(** A session whose [get] and [post] give the same answer to every call. *)
Definition always (answer : reply) : Session :=
  fun method_name =>
    if String.eqb method_name "get" || String.eqb method_name "post"
    then AttrMethod (fun _ _ => answer)
    else AttrMissing.

(** A session that answers its calls from a script, one answer a call;
    when the script is over the connection is refused. *)
Definition scripted (answers : list reply) : Session :=
  fun method_name =>
    if String.eqb method_name "get" || String.eqb method_name "post"
    then AttrMethod (fun n _ =>
           nth n answers (Throws (Transport "connection refused")))
    else AttrMissing.

Definition general : pyval :=
  PDict [("channelID", PStr "ch1"); ("channel_name", PStr "general");
         ("public", PBool true); ("permissions", PDict [("r", PBool true)])].

(** The same channel after it was renamed on the server. *)
Definition renamed : pyval :=
  PDict [("channelID", PStr "ch1"); ("channel_name", PStr "lobby");
         ("public", PBool true); ("permissions", PDict [("r", PBool true)])].

Definition general_channel : Channel.t :=
  {| Channel.uid := PStr "ch1"; Channel.name := PStr "general";
     Channel.public := PBool true;
     Channel.permissions := PDict [("r", PBool true)] |}.

Definition renamed_channel : Channel.t :=
  {| Channel.uid := PStr "ch1"; Channel.name := PStr "lobby";
     Channel.public := PBool true;
     Channel.permissions := PDict [("r", PBool true)] |}.

Definition created (channels : list pyval) : pyval :=
  PDict [("chatroom_name", PStr "x"); ("chatroomID", PStr "c1");
         ("userID", PStr "u1"); ("channels", PList channels)].

(** A callback that returns, and one that raises, whatever they are
    called with. *)
Definition quiet (label : nat) : callback :=
  {| label := label; ends := fun _ => None |}.

Definition failing (label : nat) (e : exn) : callback :=
  {| label := label; ends := fun _ => Some e |}.

(** A session with [get] and [post] and with the attribute [headers],
    which is a dict and no method. *)
Definition with_headers (answer : reply) : Session :=
  fun method_name =>
    if String.eqb method_name "get" || String.eqb method_name "post"
    then AttrMethod (fun _ _ => answer)
    else if String.eqb method_name "headers"
    then not_callable "CaseInsensitiveDict"
    else AttrMissing.

Definition args : ReqArgs.t :=
  {| ReqArgs.url := "http://h/api/v0/chatroom";
     ReqArgs.headers := None;
     ReqArgs.json := None |}.

End Mock.

(** * Properties *)

Import Chatroom.

Definition logged (w : World) (method_name : string) (req_args : ReqArgs.t) : World :=
  {| calls := calls w ++ [(method_name, req_args)];
     invoked := invoked w;
     threads := threads w |}.

Definition called_back (w : World) (i : invocation) : World :=
  {| calls := calls w; invoked := invoked w ++ [i]; threads := threads w |}.

(** ** Vocabulary *)

(** What a method gives after it called a handler as its last step but
    the [return None]: [None] when the handler returned, and what the
    handler raised when it raised. *)
Definition handled (i : invocation) : outcome pyval :=
  match raised i with
  | None => Return PNone
  | Some e => Raise e
  end.

(** A call that raised has called no callback: [r] is what the call gave,
    and [w] the world it started in. *)
Definition never_both {A} (r : outcome A * Chatroom.t * World) (w : World)
  : Prop :=
  (exists e, fst (fst r) = Raise e) -> invoked (snd r) = invoked w.

(** [merge channels new]: the channels after the ones in [new] were added
    one by one, each only if the list does not hold an equal one yet. *)
Fixpoint merge (channels new : list Channel.t) : list Channel.t :=
  match new with
  | [] => channels
  | c :: rest =>
      merge (if Channel.member c channels then channels else channels ++ [c]) rest
  end.

Fixpoint from_dicts (items : list pyval) : outcome (list Channel.t) :=
  match items with
  | [] => Return []
  | data :: rest =>
      match Channel.from_dict data with
      | Raise e => Raise e
      | Return c =>
          match from_dicts rest with
          | Raise e => Raise e
          | Return cs => Return (c :: cs)
          end
      end
  end.

(** The list only grows at its end, by channels not equal to one in it. *)
Inductive grown : list Channel.t -> list Channel.t -> Prop :=
| grown_same l : grown l l
| grown_more l c l' :
    Channel.member c l = false -> grown (l ++ [c]) l' -> grown l l'.

(** No two entries are equal for the dataclass: the one that came later
    was compared with every earlier one before it was appended. *)
Definition distinct (l : list Channel.t) : Prop :=
  forall i j a b, (i < j)%nat ->
    nth_error l i = Some a -> nth_error l j = Some b -> Channel.eqb a b = false.

Definition active_listed (self : Chatroom.t) : Prop :=
  forall a, active_channel self = Some a -> In a (channels self).

(** No two entries have the same [uid]. *)
Definition unique_uids (l : list Channel.t) : Prop :=
  forall i j a b, (i < j)%nat ->
    nth_error l i = Some a -> nth_error l j = Some b ->
    py_eq (Channel.uid a) (Channel.uid b) = false.

(** Every call of the sequence that names a channel names one that is in
    the channel list when the call is made. *)
Fixpoint names_listed (ops : list Run.op) (self : Chatroom.t) (w : World) : Prop :=
  match ops with
  | [] => True
  | o :: rest =>
      (forall g, Run.given o = Some g -> In g (channels self)) /\
      let '(self', w') := Run.step o self w in names_listed rest self' w'
  end.

(** The base URL, as the chatroom and as its endpoints hold it. *)
Definition base_urls (self : Chatroom.t) : string * pyval :=
  (url self, EndpointContainer._url (endpoints self)).

(** What one call may do to the channels and the active channel: the
    list grows, and the active channel stays, or is the first of the list,
    or is the channel the call was given.  The base URL stays. *)
Definition moves (given : option Channel.t) (self self' : Chatroom.t) : Prop :=
  grown (channels self) (channels self') /\
  (active_channel self' = active_channel self \/
   (exists first, hd_error (channels self') = Some first /\
                  active_channel self' = Some first) \/
   (exists g, given = Some g /\ active_channel self' = Some g)) /\
  base_urls self' = base_urls self.

(** The fields of the chatroom other than its channels, its active channel
    and its session. *)
Definition account (self : Chatroom.t) :=
  (uid self, url self, name self, interval self, user_id self,
   endpoints self, _listeners self, _is_looping self).

(** The requests [create] and [login] hand to [_request]. *)
Definition create_args (self : Chatroom.t) (username password : string)
  : ReqArgs.t :=
  {| ReqArgs.url :=
       str (EndpointContainer._url (endpoints self)) ++ "/api/v0/chatroom";
     ReqArgs.headers := Some (PDict [("Content-Type", PStr "application/json")]);
     ReqArgs.json :=
       Some (PDict [("chatroom_name", name self);
                    ("username", PStr username);
                    ("password", PStr password)]) |}.

Definition login_args (self : Chatroom.t) (user_id password : string)
  : ReqArgs.t :=
  {| ReqArgs.url :=
       str (EndpointContainer._url (endpoints self)) ++ "/api/v0/login/"
       ++ str (EndpointContainer._uid (endpoints self));
     ReqArgs.headers := None;
     ReqArgs.json :=
       Some (PDict [("userID", PStr user_id); ("password", PStr password)]) |}.


(** The endpoint [send] picks for its content. *)
Definition endpoint_of (data : content) : string :=
  match data with
  | Bytes _ => "files"
  | Text _ => "messages"
  end.

(** The message [send] posts when it sends in [channel]. *)
Definition send_msg (self : Chatroom.t) (data : content) (channel : Channel.t)
    (reply_id : pyval) : pyval :=
  PDict [("userID", user_id self);
         ("channelID", Channel.uid channel);
         ("replyID", reply_id);
         ("data", content_val data)].

(** The request [get_messages] makes for [channel]. *)
Definition messages_args (self : Chatroom.t) (channel : Channel.t)
    (count time : pyval) : ReqArgs.t :=
  {| ReqArgs.url :=
       str (EndpointContainer._url (endpoints self)) ++ "/api/v0/messages/"
       ++ str (EndpointContainer._uid (endpoints self));
     ReqArgs.headers :=
       Some (PDict [("channelID", Channel.uid channel);
                    ("count", count);
                    ("time", time)]);
     ReqArgs.json := None |}.

Fixpoint brace_free (s : string) : bool :=
  match s with
  | EmptyString => true
  | String c rest =>
      negb (Ascii.eqb c "{") && negb (Ascii.eqb c "}") && brace_free rest
  end.

(** *** Footprints

    [sat R m self w]: running [m] from [self] and [w] takes the chatroom
    and the world to ones that [R] relates to them, whether [m] returns or
    raises. *)
Definition sat {A} (R : Chatroom.t * World -> Chatroom.t * World -> Prop)
    (m : M A) (self : Chatroom.t) (w : World) : Prop :=
  R (self, w) (Run.after (m self w)).

(** A relation that looks at the chatroom only, or at the world only. *)
Definition on_state (P : Chatroom.t -> Chatroom.t -> Prop)
  : Chatroom.t * World -> Chatroom.t * World -> Prop :=
  fun a b => P (fst a) (fst b).

Definition on_world (P : World -> World -> Prop)
  : Chatroom.t * World -> Chatroom.t * World -> Prop :=
  fun a b => P (snd a) (snd b).

(** The part [f] of the chatroom is what it was. *)
Definition same {X} (f : Chatroom.t -> X) : Chatroom.t -> Chatroom.t -> Prop :=
  fun a b => f b = f a.

(** An active channel, once there is one, stays. *)
Definition sticky : Chatroom.t -> Chatroom.t -> Prop :=
  fun a b => forall c, active_channel a = Some c -> active_channel b = Some c.

(** The records of the world only grow, and the callbacks called are no
    more than the HTTP calls made; no thread is started. *)
Definition ledger : World -> World -> Prop :=
  fun a b =>
    (exists new, calls b = (calls a ++ new)%list) /\
    (exists new, invoked b = (invoked a ++ new)%list) /\
    (List.length (invoked b) + List.length (calls a)
     <= List.length (invoked a) + List.length (calls b))%nat /\
    threads b = threads a.

(** The parts of a chatroom that no method assigns. *)
Definition fixed_part (self : Chatroom.t) :=
  (url self, interval self, _is_looping self).

(** Is the event one the polling loop is started for? *)
Definition starts_loop (event : Event) : bool :=
  negb (existsb (Event_eqb event) [ERROR; NETWORK_EXCEPTION]).

(** The subscriptions of a sequence of calls that start a thread. *)
Fixpoint loop_subscriptions (ops : list Run.op) : nat :=
  match ops with
  | [] => 0
  | Run.Subscribe event _ :: rest =>
      (if starts_loop event then 1 else 0) + loop_subscriptions rest
  | _ :: rest => loop_subscriptions rest
  end.

(** The request [create_channel] hands to [_request]. *)
Definition channel_args (self : Chatroom.t) (channel_name : string)
  : ReqArgs.t :=
  {| ReqArgs.url :=
       str (EndpointContainer._url (endpoints self)) ++ "/api/v0/channels/"
       ++ str (EndpointContainer._uid (endpoints self));
     ReqArgs.headers := None;
     ReqArgs.json :=
       Some (PDict [("userID", user_id self);
                    ("channel_name", PStr channel_name)]) |}.

(** A [Teacup] after a sequence of [subscribe_all]. *)
Fixpoint subscribe_alls (subs : list (Event * callback)) (self : Teacup.t)
    (w : World) : Teacup.t * World :=
  match subs with
  | [] => (self, w)
  | (event, cb) :: rest =>
      let '(self', w') := Teacup.subscribe_all self event cb w in
      subscribe_alls rest self' w'
  end.

(** A value as [json.loads] makes it: the dicts in it have each key
    once. *)
Fixpoint unique_keys (keys : list string) : bool :=
  match keys with
  | [] => true
  | k :: rest => negb (existsb (String.eqb k) rest) && unique_keys rest
  end.

Fixpoint wf (v : pyval) : bool :=
  match v with
  | PList l => forallb wf l
  | PDict d => unique_keys (map fst d) && forallb (fun kv => wf (snd kv)) d
  | PChannel u n p m => wf u && wf n && wf p && wf m
  | _ => true
  end.

(** ** The request executor *)

Lemma request_eq (method_name : string) (req_args : ReqArgs.t)
    (self : Chatroom.t) (w : World) :
  _request method_name req_args self w =
  match session self method_name with
  | AttrMissing => (Raise (AttributeError method_name), self, w)
  | AttrNone => (Raise (ValueError (no_method_message method_name)), self, w)
  | AttrMethod method =>
      let w1 := logged w method_name req_args in
      match method (List.length (calls w)) req_args with
      | Throws exception =>
          match listeners_get (_listeners self) NETWORK_EXCEPTION with
          | Some handler =>
              let i := ExceptionCall handler exception method_name req_args in
              (handled i, self, called_back w1 i)
          | None => (Raise exception, self, w1)
          end
      | Responds response =>
          if status_code response =? 200 then (Return (body response), self, w1)
          else
            match listeners_get (_listeners self) ERROR with
            | Some handler =>
                let i := ErrorCall handler response method_name req_args in
                (handled i, self, called_back w1 i)
            | None =>
                (Raise (RuntimeError (upper method_name)
                          (status_code response) (text response)), self, w1)
            end
      end
  end.
Proof.
  unfold _request, bind, get, call, invoke, ret, raise, logged, called_back, handled.
  destruct (session self method_name) as [| |method]; try reflexivity.
  destruct (method _ req_args) as [response|exception].
  - destruct (status_code response =? 200); [reflexivity|].
    destruct (listeners_get _ ERROR); [|reflexivity].
    cbv zeta. destruct (raised _); reflexivity.
  - destruct (listeners_get _ NETWORK_EXCEPTION); [|reflexivity].
    cbv zeta. destruct (raised _); reflexivity.
Qed.

Lemma request_keeps_self (method_name : string) (req_args : ReqArgs.t)
    (self : Chatroom.t) (w : World) :
  snd (fst (_request method_name req_args self w)) = self.
Proof.
  rewrite request_eq.
  destruct (session self method_name) as [| |method]; try reflexivity.
  cbv zeta.
  destruct (method _ req_args) as [response|exception].
  - destruct (status_code response =? 200); [reflexivity|].
    destruct (listeners_get _ ERROR); reflexivity.
  - destruct (listeners_get _ NETWORK_EXCEPTION); reflexivity.
Qed.

(** C1 (as the claim states it, refuted).  The server answers 404 and the
    ERROR handler registered raises: the call of [_request] has called the
    handler and raises, both in the same call. *)
Lemma request_can_call_back_and_raise :
  let handler := Mock.failing 7 (KeyError "detail") in
  let self := Chatroom.set_listeners [(ERROR, handler)]
                (Chatroom.__init__ "http://h" PNone PNone
                   (Mock.always (Responds Mock.not_found))) in
  let r := _request "get" Mock.args self world0 in
  fst (fst r) = Raise (KeyError "detail") /\
  invoked (snd r) = [ErrorCall handler Mock.not_found "get" Mock.args] /\
  ~ never_both r world0.
Proof.
  cbv zeta. split; [reflexivity|]. split; [reflexivity|].
  intros H. unfold never_both in H.
  assert (E : invoked
                (snd (_request "get" Mock.args
                        (Chatroom.set_listeners
                           [(ERROR, Mock.failing 7 (KeyError "detail"))]
                           (Chatroom.__init__ "http://h" PNone PNone
                              (Mock.always (Responds Mock.not_found))))
                        world0)) = invoked world0).
  { apply H. exists (KeyError "detail"). reflexivity. }
  discriminate E.
Qed.

(** C1 (amended).  A call of [_request] whose HTTP call comes back with a
    response ends in exactly one of three ways, told apart by the status
    code and by whether an ERROR handler is registered: status 200, the
    parsed body is returned and no callback is called; another status with
    a handler, the handler is called once with (response, method_name,
    req_args), and [None] is returned when the handler returns, while what
    the handler raises leaves [_request]; another status without a handler,
    [RuntimeError] with the status code and the body text is raised and no
    callback is called.  Whatever the HTTP call does, a call of [_request]
    that raises has called no callback, or it has called one and raises
    what that callback raised. *)
Theorem request_one_outcome (method_name : string) (req_args : ReqArgs.t)
    (self : Chatroom.t) (w : World) :
  let '(result, self', w') := _request method_name req_args self w in
  (forall e, result = Raise e ->
     invoked w' = invoked w \/
     exists i, invoked w' = (invoked w ++ [i])%list /\ raised i = Some e) /\
  forall method response,
    session self method_name = AttrMethod method ->
    method (List.length (calls w)) req_args = Responds response ->
    self' = self /\
    calls w' = (calls w ++ [(method_name, req_args)])%list /\
    ((status_code response = 200 /\
      result = Return (body response) /\
      invoked w' = invoked w)
     \/
     (status_code response <> 200 /\
      exists handler,
        listeners_get (_listeners self) ERROR = Some handler /\
        invoked w' =
          (invoked w ++ [ErrorCall handler response method_name req_args])%list /\
        (raised (ErrorCall handler response method_name req_args) = None /\
         result = Return PNone
         \/
         exists e,
           raised (ErrorCall handler response method_name req_args) = Some e /\
           result = Raise e))
     \/
     (status_code response <> 200 /\
      listeners_get (_listeners self) ERROR = None /\
      result = Raise (RuntimeError (upper method_name)
                        (status_code response) (text response)) /\
      invoked w' = invoked w)).
Proof.
  rewrite request_eq.
  destruct (session self method_name) as [| |method] eqn:Hattr.
  - split; [left; reflexivity|]. intros m r H; discriminate H.
  - split; [left; reflexivity|]. intros m r H; discriminate H.
  - cbv zeta.
    destruct (method (List.length (calls w)) req_args) as [response|exception] eqn:Hcall.
    + destruct (status_code response =? 200) eqn:Hstatus.
      * split; [left; reflexivity|].
        intros m r Hm Hr. injection Hm as <-. rewrite Hcall in Hr. injection Hr as <-.
        apply Z.eqb_eq in Hstatus.
        split; [reflexivity|]. split; [reflexivity|]. left. auto.
      * apply Z.eqb_neq in Hstatus.
        destruct (listeners_get (_listeners self) ERROR) as [handler|] eqn:Hh.
        -- unfold handled.
           destruct (raised (ErrorCall handler response method_name req_args))
             as [e|] eqn:He.
           ++ split.
              ** intros e' E. injection E as <-. right.
                 exists (ErrorCall handler response method_name req_args).
                 split; [reflexivity|exact He].
              ** intros m r Hm Hr. injection Hm as <-. rewrite Hcall in Hr.
                 injection Hr as <-.
                 split; [reflexivity|]. split; [reflexivity|]. right; left.
                 split; [assumption|]. exists handler.
                 split; [reflexivity|]. split; [reflexivity|].
                 right. exists e. rewrite He. split; reflexivity.
           ++ split; [intros e' E; discriminate E|].
              intros m r Hm Hr. injection Hm as <-. rewrite Hcall in Hr.
              injection Hr as <-.
              split; [reflexivity|]. split; [reflexivity|]. right; left.
              split; [assumption|]. exists handler.
              split; [reflexivity|]. split; [reflexivity|].
              left. rewrite He. split; reflexivity.
        -- split; [left; reflexivity|].
           intros m r Hm Hr. injection Hm as <-. rewrite Hcall in Hr. injection Hr as <-.
           split; [reflexivity|]. split; [reflexivity|]. right; right. auto.
    + destruct (listeners_get (_listeners self) NETWORK_EXCEPTION) as [handler|].
      * unfold handled.
        destruct (raised (ExceptionCall handler exception method_name req_args))
          as [e|] eqn:He.
        -- split.
           ++ intros e' E. injection E as <-. right.
              exists (ExceptionCall handler exception method_name req_args).
              split; [reflexivity|exact He].
           ++ intros m r Hm Hr. injection Hm as <-. rewrite Hcall in Hr.
              discriminate Hr.
        -- split; [intros e' E; discriminate E|].
           intros m r Hm Hr. injection Hm as <-. rewrite Hcall in Hr. discriminate Hr.
      * split; [left; reflexivity|].
        intros m r Hm Hr. injection Hm as <-. rewrite Hcall in Hr. discriminate Hr.
Qed.

Lemma request_one_outcome_witness :
  let self := Chatroom.set_listeners [(ERROR, Mock.quiet 7)]
                (Chatroom.__init__ "http://h" PNone PNone
                   (Mock.always (Responds Mock.not_found))) in
  session self "get" = AttrMethod (fun _ _ => Responds Mock.not_found) /\
  let '(result, self', w') := _request "get" Mock.args self world0 in
  result = Return PNone /\
  self' = self /\
  calls w' = [("get", Mock.args)] /\
  invoked w' = [ErrorCall (Mock.quiet 7) Mock.not_found "get" Mock.args].
Proof.
  cbv zeta. split; [reflexivity|].
  generalize (request_one_outcome "get" Mock.args
                (Chatroom.set_listeners [(ERROR, Mock.quiet 7)]
                   (Chatroom.__init__ "http://h" PNone PNone
                      (Mock.always (Responds Mock.not_found)))) world0).
  destruct (_request _ _ _ _) as [[result self'] w'].
  intros [_ H].
  destruct (H (fun _ _ => Responds Mock.not_found) Mock.not_found eq_refl eq_refl)
    as (Hself & Hcalls &
        [(Hs & _)|[(_ & handler & Hh & Hi & Hr)|(_ & Hn & _)]]).
  - discriminate Hs.
  - injection Hh as <-.
    destruct Hr as [[_ Hr]|(e & He & _)]; [|discriminate He].
    repeat split; assumption.
  - discriminate Hn.
Defined.

(** C9 (the code at the failing input).  The session has the attribute
    [headers], which is a dict and no method, and handlers for ERROR and
    NETWORK_EXCEPTION are registered.  [_request("headers", ...)] gets past
    the guard, since the attribute is not [None]; calling the dict raises
    [TypeError] inside the [try], so the NETWORK_EXCEPTION handler is
    called with it and [None] is returned: the call does not fail.  For
    [fetch], a name the session has nothing under, it is [getattr] that
    raises, [AttributeError], before the guard is reached. *)
Theorem request_unknown_method_reaches_handler :
  let self := Chatroom.set_listeners
                [(ERROR, Mock.quiet 7); (NETWORK_EXCEPTION, Mock.quiet 8)]
                (Chatroom.__init__ "http://h" PNone PNone
                   (Mock.with_headers (Mock.ok PNone))) in
  session self "headers" = not_callable "CaseInsensitiveDict" /\
  session self "fetch" = AttrMissing /\
  (let '(result, _, w') := _request "headers" Mock.args self world0 in
   result = Return PNone /\
   invoked w' =
     [ExceptionCall (Mock.quiet 8)
        (TypeError "'CaseInsensitiveDict' object is not callable")
        "headers" Mock.args]) /\
  _request "fetch" Mock.args self world0 =
    (Raise (AttributeError "fetch"), self, world0).
Proof.
  cbv zeta. repeat split.
Qed.

(** ** The polling loop *)

Lemma subscribe_keeps_is_looping (event : Event) (cb : callback)
    (self : Chatroom.t) (w : World) :
  _is_looping (snd (fst (subscribe event cb self w))) = _is_looping self.
Proof.
  unfold subscribe, bind, get, modify, _run, start_thread, ret. simpl.
  destruct (negb (_is_looping self) && _); reflexivity.
Qed.

(** C2 (the code at the failing input).  On a chatroom just made, two
    subscriptions to MSG_NEW start the polling thread twice, and
    [_is_looping] is [False] after each of them: [_run] never sets it. *)
Theorem subscribe_twice_starts_two_loops :
  let fresh := Chatroom.__init__ "http://h" (PStr "c1") PNone
                 (Mock.always (Mock.ok PNone)) in
  let '(_, once, w1) := subscribe MSG_NEW (Mock.quiet 1) fresh world0 in
  let '(_, twice, w2) := subscribe MSG_NEW (Mock.quiet 2) once w1 in
  _is_looping fresh = false /\
  _is_looping once = false /\ threads w1 = [PStr "c1"] /\
  _is_looping twice = false /\ threads w2 = [PStr "c1"; PStr "c1"].
Proof.
  vm_compute. repeat split.
Qed.

(** ** Channels *)

Lemma request_shape (method_name : string) (req_args : ReqArgs.t)
    (self : Chatroom.t) (w : World) :
  exists r w', _request method_name req_args self w = (r, self, w').
Proof.
  pose proof (request_keeps_self method_name req_args self w) as K.
  destruct (_request method_name req_args self w) as [[r s] w'].
  simpl in K. subst s. eauto.
Qed.

(** The next [_request] of the goal leaves the chatroom as it is: what it
    returned and the world after it get names. *)
Ltac request_step r w' :=
  match goal with
  | |- context [_request ?m ?a ?s ?w] =>
      destruct (request_shape m a s w) as (r & w' & ->)
  end.

Lemma grown_trans l1 l2 l3 : grown l1 l2 -> grown l2 l3 -> grown l1 l3.
Proof.
  induction 1 as [l|l c l' Hc H IH]; intros H3; [assumption|].
  eapply grown_more; eauto.
Qed.

Lemma grown_In l l' a : grown l l' -> In a l -> In a l'.
Proof.
  induction 1 as [l|l c l' Hc H IH]; intros Ha; [assumption|].
  apply IH, in_or_app. left; assumption.
Qed.

Lemma grown_hd l l' first :
  grown l l' -> hd_error l = Some first -> hd_error l' = Some first.
Proof.
  induction 1 as [l|l c l' Hc H IH]; intros Hf; [assumption|].
  apply IH. destruct l; [discriminate Hf|exact Hf].
Qed.

Lemma member_false_In c l a :
  Channel.member c l = false -> In a l -> Channel.eqb a c = false.
Proof.
  intros Hc Ha. destruct (Channel.eqb a c) eqn:E; [|reflexivity].
  assert (H : Channel.member c l = true)
    by (apply existsb_exists; exists a; split; assumption).
  rewrite H in Hc; discriminate Hc.
Qed.

Lemma distinct_snoc l c :
  distinct l -> Channel.member c l = false -> distinct (l ++ [c]).
Proof.
  intros Hl Hc i j a b Hij Ha Hb.
  assert (Hj : (j < List.length (l ++ [c]))%nat)
    by (apply nth_error_Some; congruence).
  rewrite length_app in Hj. simpl in Hj.
  rewrite nth_error_app1 in Ha by lia.
  destruct (Nat.eq_dec j (List.length l)) as [->|Hne].
  - rewrite nth_error_app2, Nat.sub_diag in Hb by lia.
    injection Hb as <-.
    apply (member_false_In c l a Hc). eapply nth_error_In; exact Ha.
  - rewrite nth_error_app1 in Hb by lia. exact (Hl i j a b Hij Ha Hb).
Qed.

Lemma grown_distinct l l' : grown l l' -> distinct l -> distinct l'.
Proof.
  induction 1 as [l|l c l' Hc H IH]; intros Hl; [assumption|].
  apply IH, distinct_snoc; assumption.
Qed.

Lemma moves_refl given self : moves given self self.
Proof. split; [apply grown_same|split; [left; reflexivity|reflexivity]]. Qed.

(** A state that differs from [self] in neither the channels, the active
    channel nor the base URL is as good as [self]. *)
Lemma moves_like given self self' :
  channels self' = channels self ->
  active_channel self' = active_channel self ->
  base_urls self' = base_urls self ->
  moves given self self'.
Proof.
  intros Hc Ha Hb. split; [rewrite Hc; apply grown_same|].
  split; [left; exact Ha|exact Hb].
Qed.

Lemma moves_trans given a b c :
  moves given a b -> moves given b c -> moves given a c.
Proof.
  intros (Hg1 & Ha1 & Hb1) (Hg2 & Ha2 & Hb2).
  split; [eapply grown_trans; eauto|]. split; [|congruence].
  destruct Ha2 as [E|[H|H]]; [|right; left; exact H|right; right; exact H].
  rewrite E. destruct Ha1 as [E1|[(first & Hf & E1)|H]]; [left; exact E1| |right; right; exact H].
  right; left. exists first. split; [|exact E1].
  eapply grown_hd; eauto.
Qed.

Lemma moves_weaken given self self' : moves None self self' -> moves given self self'.
Proof.
  intros (Hg & [E|[H|(g & Hn & _)]] & Hb); repeat split; auto; discriminate Hn.
Qed.

(** The loop of [_update_channels] touches the channel list only, and
    makes no call. *)
Lemma ingest_spec (items : list pyval) (self : Chatroom.t) (w : World) :
  exists r self',
    ingest items self w = (r, self', w) /\
    account self' = account self /\
    session self' = session self /\
    active_channel self' = active_channel self /\
    grown (channels self) (channels self') /\
    forall chans, from_dicts items = Return chans ->
      r = Return tt /\ channels self' = merge (channels self) chans.
Proof.
  revert self. induction items as [|data rest IH]; intros self.
  - exists (Return tt), self.
    split; [reflexivity|]. do 3 (split; [reflexivity|]).
    split; [apply grown_same|].
    intros chans H. injection H as <-. split; reflexivity.
  - cbn [ingest from_dicts]. unfold bind at 1, lift.
    destruct (Channel.from_dict data) as [c|e].
    + unfold bind at 1, get. unfold bind at 1.
      destruct (Channel.member c (channels self)) eqn:Hm; cbn [negb].
      * destruct (IH self) as (r & self' & E & Ha & Hs & Hact & Hg & Hm').
        exists r, self'. unfold ret. rewrite E.
        do 5 (split; [assumption || reflexivity|]).
        intros chans H.
        destruct (from_dicts rest) as [cs|]; [|discriminate H].
        injection H as <-. cbn [merge]. rewrite Hm. apply Hm'. reflexivity.
      * destruct (IH (set_channels (channels self ++ [c]) self))
          as (r & self' & E & Ha & Hs & Hact & Hg & Hm').
        exists r, self'. unfold modify. rewrite E.
        split; [reflexivity|]. do 3 (split; [assumption|]).
        split; [eapply grown_more; eauto|].
        intros chans H.
        destruct (from_dicts rest) as [cs|]; [|discriminate H].
        injection H as <-. cbn [merge]. rewrite Hm. apply (Hm' cs). reflexivity.
    + exists (Raise e), self.
      split; [reflexivity|]. do 3 (split; [reflexivity|]).
      split; [apply grown_same|].
      intros chans H. discriminate H.
Qed.

Lemma append_nil_r (s : string) : s ++ "" = s.
Proof. induction s as [|c s IH]; simpl; congruence. Qed.

Lemma append_assoc (a b c : string) : a ++ (b ++ c) = (a ++ b) ++ c.
Proof. induction a as [|x a IH]; simpl; congruence. Qed.

Arguments str : simpl never.

(** Every endpoint resolves, to the base URL, the path and the chatroom
    identifier as [str] prints them. *)
Lemma endpoint_resolved (e : EndpointContainer.t) :
  EndpointContainer.__getattr__ e "base" =
    Return (str (EndpointContainer._url e) ++ "/api/v0") /\
  EndpointContainer.__getattr__ e "chatroom" =
    Return (str (EndpointContainer._url e) ++ "/api/v0/chatroom") /\
  EndpointContainer.__getattr__ e "login" =
    Return (str (EndpointContainer._url e) ++ "/api/v0/login/"
            ++ str (EndpointContainer._uid e)) /\
  EndpointContainer.__getattr__ e "files" =
    Return (str (EndpointContainer._url e) ++ "/api/v0/files/"
            ++ str (EndpointContainer._uid e)) /\
  EndpointContainer.__getattr__ e "messages" =
    Return (str (EndpointContainer._url e) ++ "/api/v0/messages/"
            ++ str (EndpointContainer._uid e)) /\
  EndpointContainer.__getattr__ e "channels" =
    Return (str (EndpointContainer._url e) ++ "/api/v0/channels/"
            ++ str (EndpointContainer._uid e)).
Proof.
  destruct e as [u i].
  unfold EndpointContainer.__getattr__, EndpointContainer.base, format.
  cbn.
  generalize (str u) (str i). intros a b.
  change (str (PStr (a ++ "/api/v0"))) with (a ++ "/api/v0").
  rewrite !append_nil_r, <- !append_assoc.
  repeat split.
Qed.

Lemma update_from_spec (arg : pyval) (self : Chatroom.t) (w : World) :
  exists r self',
    update_from arg self w = (r, self', w) /\
    account self' = account self /\
    session self' = session self /\
    moves None self self' /\
    forall items chans,
      iter arg = Return items -> from_dicts items = Return chans ->
      r = Return PNone /\
      channels self' = merge (channels self) chans /\
      active_channel self' =
        match active_channel self with
        | Some a => Some a
        | None => hd_error (merge (channels self) chans)
        end.
Proof.
  unfold update_from. unfold bind at 1, lift.
  destruct (iter arg) as [items|e].
  - unfold bind at 1.
    destruct (ingest_spec items self w) as (r & s1 & E & Ha & Hs & Hact & Hg & Hm).
    assert (Hb : base_urls s1 = base_urls self)
      by (unfold base_urls; unfold account in Ha; congruence).
    rewrite E. destruct r as [[]|e].
    + unfold bind at 1, get.
      destruct (active_channel s1) as [a|] eqn:Ea.
      * exists (Return PNone), s1. split; [reflexivity|].
        do 2 (split; [assumption|]).
        split; [split; [assumption|split; [left; congruence|exact Hb]]|].
        intros items' chans Hi Hf. injection Hi as <-.
        destruct (Hm chans Hf) as [_ Hc].
        rewrite <- Hact. repeat split; assumption.
      * destruct (channels s1) as [|first rest] eqn:Ec.
        -- exists (Return PNone), s1. split; [reflexivity|].
           do 2 (split; [assumption|]).
           split; [split; [rewrite ?Ec in *; assumption
                          |split; [left; congruence|exact Hb]]|].
           intros items' chans Hi Hf. injection Hi as <-.
           destruct (Hm chans Hf) as [_ Hc].
           rewrite <- Hact, <- Hc, ?Ec. repeat split; try assumption; congruence.
        -- exists (Return PNone), (set_active_channel (Some first) s1).
           split; [reflexivity|].
           split; [exact Ha|]. split; [exact Hs|].
           split.
           { split; [simpl; rewrite ?Ec; exact Hg|]. split; [|exact Hb].
             right; left. exists first. simpl. rewrite ?Ec. split; reflexivity. }
           intros items' chans Hi Hf. injection Hi as <-.
           destruct (Hm chans Hf) as [_ Hc].
           simpl. rewrite <- Hact, <- Hc, ?Ec.
           repeat split; try assumption; try reflexivity; congruence.
    + exists (Raise e), s1. split; [reflexivity|].
      do 2 (split; [assumption|]).
      split; [split; [assumption|split; [left; assumption|exact Hb]]|].
      intros items' chans Hi Hf. injection Hi as <-.
      destruct (Hm chans Hf) as [Hr _]. discriminate Hr.
  - exists (Raise e), self. split; [reflexivity|].
    do 2 (split; [reflexivity|]). split; [apply moves_refl|].
    intros items chans Hi. discriminate Hi.
Qed.

Lemma update_channels_spec (arg : pyval) (self : Chatroom.t) (w : World) :
  exists r self' w',
    _update_channels arg self w = (r, self', w') /\
    account self' = account self /\
    session self' = session self /\
    moves None self self'.
Proof.
  unfold _update_channels. unfold bind at 1, get.
  destruct (truthy (user_id self)); cbn [negb].
  - destruct (is_none arg).
    + unfold bind at 1, lift.
      destruct (endpoint_resolved (endpoints self)) as (_ & _ & _ & _ & _ & ->).
      unfold bind at 1.
      request_step r w'.
      destruct r as [fetched|e].
      * destruct (is_none fetched).
        -- exists (Return PNone), self, w'. split; [reflexivity|].
           do 2 (split; [reflexivity|]). apply moves_refl.
        -- destruct (update_from_spec fetched self w')
             as (r & s' & E & Ha & Hs & Hm & _).
           exists r, s', w'. auto.
      * exists (Raise e), self, w'. split; [reflexivity|].
        do 2 (split; [reflexivity|]). apply moves_refl.
    + destruct (update_from_spec arg self w) as (r & s' & E & Ha & Hs & Hm & _).
      exists r, s', w. auto.
  - exists (Raise (AssertionError "Please log in before getting channels!")), self, w.
    split; [reflexivity|]. do 2 (split; [reflexivity|]). apply moves_refl.
Qed.

(** The same for the next [_update_channels] of the goal, with what it
    may have done to the channels. *)
Ltac update_step r s' w' Hm :=
  match goal with
  | |- context [_update_channels ?a ?s ?w] =>
      destruct (update_channels_spec a s w) as (r & s' & w' & -> & _ & _ & Hm)
  end.

(** ** create *)

Lemma endpoint_set_uid (e : EndpointContainer.t) (v : pyval) :
  EndpointContainer.set e "uid" v =
  Return {| EndpointContainer._url := EndpointContainer._url e;
            EndpointContainer._uid := v |}.
Proof. reflexivity. Qed.

(** C4.  When the request of [create] comes back with a body that has the
    four fields, a user id that is not empty and a list of channel
    objects, [create] returns, and afterwards [name], [uid] and [user_id]
    are the fields [chatroom_name], [chatroomID] and [userID] of the body,
    the endpoints carry the new identifier, and the channels of the body
    are merged into the channel list, the first of the list becoming the
    active channel if none was active.  On a chatroom without channels:
    an empty list leaves [channels == []] and no active channel, a list of
    one channel object makes that channel the only and the active one. *)
Theorem create_success (username password : string) (self : Chatroom.t)
    (w w1 : World) (response vname vuid vuser : pyval)
    (items : list pyval) (chans : list Channel.t) :
  _request "post" (create_args self username password) self w =
    (Return response, self, w1) ->
  is_none response = false ->
  getitem response "chatroom_name" = Return vname ->
  getitem response "chatroomID" = Return vuid ->
  getitem response "userID" = Return vuser ->
  getitem response "channels" = Return (PList items) ->
  truthy vuser = true ->
  from_dicts items = Return chans ->
  exists self',
    create username password self w = (Return PNone, self', w1) /\
    name self' = vname /\
    uid self' = vuid /\
    user_id self' = vuser /\
    EndpointContainer._uid (endpoints self') = vuid /\
    EndpointContainer._url (endpoints self') =
      EndpointContainer._url (endpoints self) /\
    channels self' = merge (channels self) chans /\
    active_channel self' =
      match active_channel self with
      | Some a => Some a
      | None => hd_error (merge (channels self) chans)
      end /\
    (channels self = [] -> active_channel self = None ->
     (chans = [] -> channels self' = [] /\ active_channel self' = None) /\
     (forall c, chans = [c] ->
        channels self' = [c] /\ active_channel self' = Some c)).
Proof.
  intros Hreq Hnone Hname Huid Huser Hchannels Htruthy Hfrom.
  unfold create. unfold bind at 1, get. unfold bind at 1, lift.
  destruct (endpoint_resolved (endpoints self)) as (_ & -> & _).
  unfold bind at 1. unfold create_args in Hreq. rewrite Hreq, Hnone.
  unfold bind at 1. rewrite Hname.
  unfold bind at 1, modify. unfold bind at 1. rewrite Huid.
  unfold bind at 1. unfold bind at 1. rewrite Huser.
  unfold bind at 1. unfold bind at 1, get.
  unfold bind at 1. cbn [uid set_user_id set_uid set_name endpoints].
  rewrite endpoint_set_uid.
  unfold bind at 1. unfold bind at 1. rewrite Hchannels.
  unfold bind at 1.
  set (s3 := set_endpoints _ _).
  assert (Hin : _update_channels (PList items) s3 w1 = update_from (PList items) s3 w1).
  { unfold _update_channels. unfold bind at 1, get.
    subst s3. cbn [user_id set_endpoints set_user_id]. rewrite Htruthy. reflexivity. }
  rewrite Hin.
  destruct (update_from_spec (PList items) s3 w1) as (r & self' & E & Ha & Hs & Hm & Hx).
  destruct (Hx items chans eq_refl Hfrom) as (-> & Hc & Hact).
  rewrite E. exists self'. split; [reflexivity|].
  unfold account in Ha. subst s3. cbn in Ha, Hc, Hact.
  injection Ha as Hu _ Hn _ Hui He _ _.
  rewrite Hn, Hu, Hui, He. cbn.
  do 5 (split; [reflexivity|]).
  split; [exact Hc|]. split; [exact Hact|].
  intros Hempty Hnoact. rewrite Hempty in Hc. rewrite Hnoact, Hempty in Hact.
  split.
  - intros ->. split; assumption.
  - intros c ->. split; assumption.
Qed.

(** Whenever [create] returns after the request came back with a body,
    the three fields are those of the body and the endpoints carry the
    identifier. *)
Lemma create_fields_when_returns (username password : string)
    (self self' : Chatroom.t) (w w1 w' : World) (response v : pyval) :
  _request "post" (create_args self username password) self w =
    (Return response, self, w1) ->
  is_none response = false ->
  create username password self w = (Return v, self', w') ->
  getitem response "chatroom_name" = Return (name self') /\
  getitem response "chatroomID" = Return (uid self') /\
  getitem response "userID" = Return (user_id self') /\
  EndpointContainer._uid (endpoints self') = uid self'.
Proof.
  intros Hreq Hnone.
  unfold create. unfold bind at 1, get. unfold bind at 1, lift.
  destruct (endpoint_resolved (endpoints self)) as (_ & -> & _).
  unfold bind at 1. unfold create_args in Hreq. rewrite Hreq, Hnone.
  unfold bind at 1.
  destruct (getitem response "chatroom_name") as [vname|e]; [|discriminate].
  unfold bind at 1, modify. unfold bind at 1.
  destruct (getitem response "chatroomID") as [vuid|e]; [|discriminate].
  unfold bind at 1. unfold bind at 1.
  destruct (getitem response "userID") as [vuser|e]; [|discriminate].
  unfold bind at 1. unfold bind at 1, get. unfold bind at 1.
  cbn [uid set_user_id set_uid set_name endpoints].
  rewrite endpoint_set_uid.
  unfold bind at 1. unfold bind at 1.
  destruct (getitem response "channels") as [vch|e]; [|discriminate].
  unfold bind at 1.
  match goal with
  | |- context [_update_channels ?a ?s ?w0] =>
      destruct (update_channels_spec a s w0) as (r & s' & w2 & -> & Ha & _ & _)
  end.
  destruct r; [|discriminate].
  unfold ret. intros H. injection H as _ <- _.
  unfold account in Ha. cbn in Ha. injection Ha as Hu _ Hn _ Hui He _ _.
  rewrite Hn, Hu, Hui, He. repeat split.
Qed.

Lemma create_success_witness :
  let fresh := Chatroom.__init__ "http://h" PNone (PStr "x")
                 (Mock.always (Mock.ok (Mock.created [Mock.general]))) in
  exists self',
    create "alice" "secret" fresh world0 =
      (Return PNone, self',
       logged world0 "post" (create_args fresh "alice" "secret")) /\
    name self' = PStr "x" /\
    uid self' = PStr "c1" /\
    user_id self' = PStr "u1" /\
    EndpointContainer._uid (endpoints self') = PStr "c1" /\
    channels self' = [Mock.general_channel] /\
    active_channel self' = Some Mock.general_channel.
Proof.
  cbv zeta.
  destruct (create_success "alice" "secret"
              (Chatroom.__init__ "http://h" PNone (PStr "x")
                 (Mock.always (Mock.ok (Mock.created [Mock.general]))))
              world0
              (logged world0 "post"
                 (create_args
                    (Chatroom.__init__ "http://h" PNone (PStr "x")
                       (Mock.always (Mock.ok (Mock.created [Mock.general]))))
                    "alice" "secret"))
              (Mock.created [Mock.general]) (PStr "x") (PStr "c1") (PStr "u1")
              [Mock.general] [Mock.general_channel]
              eq_refl eq_refl eq_refl eq_refl eq_refl eq_refl eq_refl eq_refl)
    as (self' & E & Hn & Hu & Hui & He & _ & _ & _ & Hpart).
  destruct (Hpart eq_refl eq_refl) as [_ Hone].
  destruct (Hone Mock.general_channel eq_refl) as [Hc Ha].
  exists self'. repeat split; assumption.
Defined.

(** The first scenario of C4: an empty list of channels. *)
Example create_without_channels :
  let fresh := Chatroom.__init__ "http://h" PNone (PStr "x")
                 (Mock.always (Mock.ok (Mock.created []))) in
  let '(r, self', _) := create "alice" "secret" fresh world0 in
  r = Return PNone /\ uid self' = PStr "c1" /\ user_id self' = PStr "u1" /\
  channels self' = [] /\ active_channel self' = None.
Proof. vm_compute. repeat split. Qed.

Lemma create_moves (username password : string) (self : Chatroom.t) (w : World) :
  moves None self (snd (fst (create username password self w))).
Proof.
  unfold create. unfold bind at 1, get. unfold bind at 1, lift.
  destruct (endpoint_resolved (endpoints self)) as (_ & -> & _).
  unfold bind at 1.
  request_step r w'.
  destruct r as [response|e]; [|apply moves_refl].
  destruct (is_none response); [apply moves_refl|].
  unfold bind at 1.
  destruct (getitem response "chatroom_name") as [vname|e]; [|apply moves_refl].
  unfold bind at 1, modify. unfold bind at 1.
  destruct (getitem response "chatroomID") as [vuid|e];
    [|apply moves_like; reflexivity].
  unfold bind at 1. unfold bind at 1.
  destruct (getitem response "userID") as [vuser|e];
    [|apply moves_like; reflexivity].
  unfold bind at 1. unfold bind at 1, get. unfold bind at 1.
  cbn [uid set_user_id set_uid set_name endpoints].
  rewrite endpoint_set_uid.
  unfold bind at 1. unfold bind at 1.
  destruct (getitem response "channels") as [vch|e];
    [|apply moves_like; reflexivity].
  unfold bind at 1.
  update_step r s' w2 Hm.
  assert (Hm' : moves None self s')
    by (eapply moves_trans; [|exact Hm]; apply moves_like; reflexivity).
  destruct r; exact Hm'.
Qed.

Lemma create_channel_moves (channel_name : string) (self : Chatroom.t) (w : World) :
  moves None self (snd (fst (create_channel channel_name self w))).
Proof.
  unfold create_channel. unfold bind at 1, get. unfold bind at 1, lift.
  destruct (endpoint_resolved (endpoints self)) as (_ & _ & _ & _ & _ & ->).
  unfold bind at 1.
  request_step r w'.
  destruct r as [response|e]; [|apply moves_refl].
  destruct (is_none response); [apply moves_refl|].
  unfold bind at 1.
  destruct (Channel.from_dict response) as [channel|e]; [|apply moves_refl].
  unfold bind at 1.
  update_step r s' w2 Hm.
  destruct r; exact Hm.
Qed.

Lemma login_moves (user_id password : string) (self : Chatroom.t) (w : World) :
  moves None self (snd (fst (login user_id password self w))).
Proof.
  unfold login. unfold bind at 1, get. unfold bind at 1, lift.
  destruct (endpoint_resolved (endpoints self)) as (_ & _ & -> & _).
  unfold bind at 1.
  request_step r w'.
  destruct r as [response|e]; [|apply moves_refl].
  unfold bind at 1, modify. unfold bind at 1.
  update_step r s' w2 Hm.
  assert (Hm' : moves None self s')
    by (eapply moves_trans; [|exact Hm]; apply moves_like; reflexivity).
  destruct r; exact Hm'.
Qed.

Lemma get_messages_moves (channel : option Channel.t) (count time : pyval)
    (self : Chatroom.t) (w : World) :
  moves channel self (snd (fst (get_messages channel count time self w))).
Proof.
  unfold get_messages. destruct channel as [given|].
  - unfold bind at 1, modify. unfold bind at 1, get. unfold bind at 1, lift.
    cbn [endpoints set_active_channel].
    destruct (endpoint_resolved (endpoints self)) as (_ & _ & _ & _ & -> & _).
    request_step r w'.
    split; [apply grown_same|]. split; [|reflexivity].
    right; right. exists given. split; reflexivity.
  - unfold bind, get, raise.
    destruct (active_channel self); apply moves_refl.
Qed.

Lemma send_moves (data : content) (channel : option Channel.t) (reply_id : pyval)
    (self : Chatroom.t) (w : World) :
  moves channel self (snd (fst (send data channel reply_id self w))).
Proof.
  assert (K : forall s,
            moves channel self s ->
            moves channel self
              (snd (fst ((self0 <- get ;;
                 endpoint <- lift (EndpointContainer.__getattr__ (endpoints self0)
                                     (match data with
                                      | Bytes _ => "files"
                                      | Text _ => "messages"
                                      end)) ;;
                 match active_channel self0 with
                 | None => raise (AttributeError "uid")
                 | Some active =>
                     let msg := PDict [("userID", user_id self0);
                                       ("channelID", Channel.uid active);
                                       ("replyID", reply_id);
                                       ("data", content_val data)] in
                     formatted <- lift (format endpoint [("chatroom_id", uid self0)]) ;;
                     _request "post"
                       {| ReqArgs.url := url self0 ++ formatted;
                          ReqArgs.headers := None;
                          ReqArgs.json := Some msg |}
                 end) s w)))).
  { intros s Hs. unfold bind at 1, get. unfold bind at 1, lift.
    destruct (EndpointContainer.__getattr__ _ _) as [endpoint|e]; [|exact Hs].
    destruct (active_channel s) as [active|]; [|exact Hs].
    cbv zeta. unfold bind at 1, lift.
    destruct (format endpoint _) as [formatted|e]; [|exact Hs].
    request_step r w'.
    exact Hs. }
  unfold send. unfold bind at 1.
  destruct channel as [given|].
  - unfold modify. apply K.
    split; [apply grown_same|]. split; [|reflexivity].
    right; right. exists given. split; reflexivity.
  - unfold bind at 1, get.
    destruct (active_channel self) eqn:Ea; [|apply moves_refl].
    unfold ret. apply K, moves_refl.
Qed.

Lemma subscribe_moves (event : Event) (cb : callback) (self : Chatroom.t) (w : World) :
  moves None self (snd (fst (subscribe event cb self w))).
Proof.
  unfold subscribe, _run. unfold bind, get, modify, start_thread, ret.
  cbn [_is_looping set_listeners].
  destruct (negb (_is_looping self) && _); apply moves_like; reflexivity.
Qed.

Lemma step_moves (o : Run.op) (self : Chatroom.t) (w : World) :
  moves (Run.given o) self (fst (Run.step o self w)).
Proof.
  destruct o as [u p|n|u p|c n t0|d c r|arg|e cb];
    cbn [Run.step Run.given Run.after fst].
  - apply create_moves.
  - apply create_channel_moves.
  - apply login_moves.
  - apply get_messages_moves.
  - apply send_moves.
  - destruct (update_channels_spec arg self w) as (r & s' & w' & -> & _ & _ & Hm).
    exact Hm.
  - apply subscribe_moves.
Qed.

(** ** The channel list over a sequence of calls *)

Lemma run_distinct (ops : list Run.op) (self : Chatroom.t) (w : World) :
  distinct (channels self) -> distinct (channels (fst (Run.run ops self w))).
Proof.
  revert self w. induction ops as [|o rest IH]; intros self w Hd; [exact Hd|].
  cbn [Run.run]. pose proof (step_moves o self w) as (Hg & _ & _).
  destruct (Run.step o self w) as [self' w']. apply IH.
  eapply grown_distinct; eauto.
Qed.

(** C6 (as the claim states it, refuted).  A user logs in twice; between
    the two logins the channel [ch1] was renamed on the server.  The
    channel list then holds two entries with the uid [ch1]. *)
Lemma channels_can_share_uid :
  let room := Chatroom.__init__ "http://h" (PStr "c1") PNone
                (Mock.scripted [Mock.ok (PDict []);
                                Mock.ok (PList [Mock.general]);
                                Mock.ok (PDict []);
                                Mock.ok (PList [Mock.renamed])]) in
  let after := fst (Run.run [Run.Login "u1" "pw"; Run.Login "u1" "pw"] room world0) in
  channels after = [Mock.general_channel; Mock.renamed_channel] /\
  ~ unique_uids (channels after).
Proof.
  cbv zeta.
  assert (E : channels
                (fst (Run.run [Run.Login "u1" "pw"; Run.Login "u1" "pw"]
                        (Chatroom.__init__ "http://h" (PStr "c1") PNone
                           (Mock.scripted [Mock.ok (PDict []);
                                           Mock.ok (PList [Mock.general]);
                                           Mock.ok (PDict []);
                                           Mock.ok (PList [Mock.renamed])]))
                        world0)) =
              [Mock.general_channel; Mock.renamed_channel])
    by (vm_compute; reflexivity).
  split; [exact E|].
  rewrite E. intros H.
  specialize (H 0%nat 1%nat Mock.general_channel Mock.renamed_channel
                (Nat.lt_0_succ 0) eq_refl eq_refl).
  discriminate H.
Qed.

(** C6 (amended).  Whatever calls are made on a chatroom, and whatever
    the server answers, the channel list never holds two entries that are
    equal as the dataclass compares them, by all four fields. *)
Theorem channels_never_repeat (url : string) (uid name : pyval)
    (session : Session) (ops : list Run.op) (w : World) :
  distinct (channels (fst (Run.run ops (Chatroom.__init__ url uid name session) w))).
Proof.
  apply run_distinct. intros i j a b _ Ha. destruct i; discriminate Ha.
Qed.

(** What [create_channel] does when the server accepted the channel: it
    hands [_update_channels] a list of [Channel] objects, which the loop
    there reads as dicts, so the call raises and the list stays as it
    was. *)
Lemma create_channel_never_adds (channel_name : string) (self : Chatroom.t)
    (w : World) :
  let '(r, self', _) := create_channel channel_name self w in
  channels self' = channels self /\ (r = Return None \/ exists e, r = Raise e).
Proof.
  unfold create_channel. unfold bind at 1, get. unfold bind at 1, lift.
  destruct (endpoint_resolved (endpoints self)) as (_ & _ & _ & _ & _ & ->).
  unfold bind at 1.
  request_step r w'.
  destruct r as [response|e]; [|split; eauto].
  destruct (is_none response); [split; auto|].
  unfold bind at 1.
  destruct (Channel.from_dict response) as [channel|e]; [|split; eauto].
  unfold bind at 1, _update_channels. unfold bind at 1, get.
  destruct (truthy (user_id self)); [|split; eauto].
  cbn. split; eauto.
Qed.

(** ** The active channel *)

Lemma run_active_listed (ops : list Run.op) (self : Chatroom.t) (w : World) :
  active_listed self -> names_listed ops self w ->
  active_listed (fst (Run.run ops self w)).
Proof.
  revert self w. induction ops as [|o rest IH]; intros self w Ha Hn; [exact Ha|].
  cbn [Run.run names_listed] in *. destruct Hn as [Hgiven Hrest].
  pose proof (step_moves o self w) as (Hg & Hact & _).
  destruct (Run.step o self w) as [self' w']. cbn [fst] in *.
  apply IH; [|exact Hrest].
  intros a Hs.
  destruct Hact as [E|[(first & Hf & E)|(g & Hgv & E)]].
  - eapply grown_In; [exact Hg|]. apply Ha. congruence.
  - rewrite E in Hs. injection Hs as <-.
    destruct (channels self'); [discriminate Hf|].
    injection Hf as ->. left; reflexivity.
  - rewrite E in Hs. injection Hs as <-.
    eapply grown_In; [exact Hg|]. apply Hgiven, Hgv.
Qed.

(** C7 (as the claim states it, refuted).  [send] with a channel that the
    chatroom does not list makes that channel the active one. *)
Lemma active_channel_can_be_unlisted :
  let room := Chatroom.__init__ "http://h" (PStr "c1") PNone
                (Mock.always (Mock.ok (PDict []))) in
  let after :=
    fst (Run.run [Run.Send (Text "hi") (Some Mock.general_channel) PNone]
           room world0) in
  active_channel after = Some Mock.general_channel /\
  channels after = [] /\
  ~ active_listed after.
Proof.
  cbv zeta. split; [vm_compute; reflexivity|]. split; [vm_compute; reflexivity|].
  intros H. apply (H Mock.general_channel). vm_compute. reflexivity.
Qed.

(** C7 (amended).  Over any sequence of calls on a chatroom in which
    [get_messages] and [send] are only ever given channels that are in the
    channel list at that time, the active channel, when there is one, is
    in the channel list. *)
Theorem active_channel_listed (url : string) (uid name : pyval)
    (session : Session) (ops : list Run.op) (w : World) :
  names_listed ops (Chatroom.__init__ url uid name session) w ->
  active_listed (fst (Run.run ops (Chatroom.__init__ url uid name session) w)).
Proof.
  apply run_active_listed. intros a H. discriminate H.
Qed.

Lemma active_channel_listed_witness :
  active_listed
    (fst (Run.run [Run.Create "alice" "secret";
                   Run.Send (Text "hi") (Some Mock.general_channel) PNone;
                   Run.GetMessages (Some Mock.general_channel) PNone PNone]
            (Chatroom.__init__ "http://h" PNone (PStr "x")
               (Mock.scripted [Mock.ok (Mock.created [Mock.general]);
                               Mock.ok (PDict []);
                               Mock.ok (PList [])]))
            world0)).
Proof.
  apply (active_channel_listed "http://h" PNone (PStr "x")
           (Mock.scripted [Mock.ok (Mock.created [Mock.general]);
                           Mock.ok (PDict []);
                           Mock.ok (PList [])])
           [Run.Create "alice" "secret";
            Run.Send (Text "hi") (Some Mock.general_channel) PNone;
            Run.GetMessages (Some Mock.general_channel) PNone PNone]
           world0).
  vm_compute.
  split; [intros g H; discriminate H|].
  split; [intros g H; injection H as <-; left; reflexivity|].
  split; [intros g H; injection H as <-; left; reflexivity|].
  exact I.
Defined.

(** ** Teacup.create_chatroom *)

Lemma create_returns_none (username password : string) (self : Chatroom.t)
    (w : World) (v : pyval) :
  fst (fst (create username password self w)) = Return v -> v = PNone.
Proof.
  unfold create. unfold bind at 1, get. unfold bind at 1, lift.
  destruct (endpoint_resolved (endpoints self)) as (_ & -> & _).
  unfold bind at 1.
  request_step r w'.
  destruct r as [response|e]; [|discriminate].
  destruct (is_none response); [intros H; injection H as <-; reflexivity|].
  unfold bind at 1.
  destruct (getitem response "chatroom_name") as [vname|e]; [|discriminate].
  unfold bind at 1, modify. unfold bind at 1.
  destruct (getitem response "chatroomID") as [vuid|e]; [|discriminate].
  unfold bind at 1. unfold bind at 1.
  destruct (getitem response "userID") as [vuser|e]; [|discriminate].
  unfold bind at 1. unfold bind at 1, get. unfold bind at 1.
  cbn [uid set_user_id set_uid set_name endpoints].
  rewrite endpoint_set_uid.
  unfold bind at 1. unfold bind at 1.
  destruct (getitem response "channels") as [vch|e]; [|discriminate].
  unfold bind at 1.
  destruct (_update_channels _ _ _) as [[r s'] w2].
  destruct r; [|discriminate].
  intros H; injection H as <-; reflexivity.
Qed.

(** [create_chatroom] tests what [create] returned, and [create] returns
    [None] on every path: no call of [create_chatroom] returns the
    chatroom. *)
Lemma create_chatroom_never_returns_chat (self : Teacup.t) (session : Session)
    (url name username password : string) (w : World) (chat : Chatroom.t) :
  fst (fst (Teacup.create_chatroom self session url name username password w))
  <> Return (Some chat).
Proof.
  unfold Teacup.create_chatroom.
  destruct (Teacup.subscribe_each _ _ _) as [[r c] w1].
  destruct r as [[]|e]; [|discriminate].
  pose proof (create_returns_none username password c w1) as H.
  destruct (create username password c w1) as [[r c'] w2].
  destruct r as [v|e]; [|discriminate].
  rewrite (H v eq_refl). discriminate.
Qed.

(** C5 (the code at the failing input).  The server creates the chatroom
    and answers 200 with its data; the new chatroom takes the identifiers
    from the answer, and [create_chatroom] returns [None]. *)
Theorem create_chatroom_returns_none_on_success :
  let '(r, chat, w) :=
    Teacup.create_chatroom Teacup.__init__
      (Mock.always (Mock.ok (Mock.created [])))
      "http://h" "x" "alice" "secret" world0 in
  r = Return None /\
  uid chat = PStr "c1" /\ user_id chat = PStr "u1" /\
  List.length (calls w) = 1%nat.
Proof.
  vm_compute. repeat split.
Qed.

(** ** login *)



(** ** The channel of get_messages and send *)

Lemma set_active_same (self : Chatroom.t) (a : Channel.t) :
  active_channel self = Some a -> set_active_channel (Some a) self = self.
Proof. destruct self; cbn; intros ->; reflexivity. Qed.

Lemma endpoint_of_resolved (self : Chatroom.t) (data : content) :
  EndpointContainer.__getattr__ (endpoints self)
    (match data with Bytes _ => "files" | Text _ => "messages" end) =
  Return (str (EndpointContainer._url (endpoints self)) ++ "/api/v0/"
          ++ endpoint_of data ++ "/"
          ++ str (EndpointContainer._uid (endpoints self))).
Proof.
  destruct (endpoint_resolved (endpoints self)) as (_ & _ & _ & Hf & Hm & _).
  destruct data; [exact Hm|exact Hf].
Qed.

(** Without a channel given, [send] on a chatroom with an active channel
    does what it does when given that channel. *)
Lemma send_uses_active (self : Chatroom.t) (w : World) (data : content)
    (active : Channel.t) (reply_id : pyval) :
  active_channel self = Some active ->
  send data None reply_id self w = send data (Some active) reply_id self w.
Proof.
  intros Ha.
  unfold send. unfold bind at 1. unfold bind at 1, get. rewrite Ha.
  unfold ret. symmetry. unfold bind at 1, modify.
  rewrite (set_active_same self active Ha). reflexivity.
Qed.

(** C3 (the code at the failing input).  A chatroom with an active
    channel is asked for messages without a channel: [get_messages] raises
    and asks the server nothing, instead of falling back on the active
    channel.  [send], which begins with the same test, does fall back on
    it in the same chatroom: it posts the message to the active channel. *)
Theorem get_messages_without_channel_raises :
  let room := set_active_channel (Some Mock.general_channel)
                (set_channels [Mock.general_channel]
                   (Chatroom.__init__ "http://h" (PStr "c1") PNone
                      (Mock.always (Mock.ok (PList []))))) in
  active_channel room = Some Mock.general_channel /\
  get_messages None PNone PNone room world0 =
    (Raise (ValueError "No channel was provided."), room, world0) /\
  let '(sent, _, w') := send (Text "hi") None PNone room world0 in
  sent = Return (PList []) /\
  calls w' =
    [("post",
      {| ReqArgs.url := "http://hhttp://h/api/v0/messages/c1";
         ReqArgs.headers := None;
         ReqArgs.json :=
           Some (send_msg room (Text "hi") Mock.general_channel PNone) |})].
Proof.
  cbv zeta. repeat split.
Qed.

(** X25.  The channel of a call.  [send]: a channel given is used and
    becomes the active one; without one, the active channel is used, as if
    it had been given; with neither, the call raises the missing-channel
    [ValueError] and asks the server nothing.  [get_messages]: a channel
    given is used and becomes the active one; without one, the call raises
    a [ValueError] and asks the server nothing. *)
Theorem channel_of_call (self : Chatroom.t) (w : World) :
  (forall data given reply_id,
     let '(_, self', w') := send data (Some given) reply_id self w in
     active_channel self' = Some given /\
     forall formatted method,
       format (str (EndpointContainer._url (endpoints self)) ++ "/api/v0/"
               ++ endpoint_of data ++ "/"
               ++ str (EndpointContainer._uid (endpoints self)))
         [("chatroom_id", uid self)] = Return formatted ->
       session self "post" = AttrMethod method ->
       calls w' =
         (calls w ++
          [("post", {| ReqArgs.url := url self ++ formatted;
                       ReqArgs.headers := None;
                       ReqArgs.json :=
                         Some (send_msg self data given reply_id) |})])%list) /\
  (forall data active reply_id,
     active_channel self = Some active ->
     send data None reply_id self w = send data (Some active) reply_id self w) /\
  (forall data reply_id,
     active_channel self = None ->
     send data None reply_id self w =
       (Raise (ValueError missing_channel_message), self, w)) /\
  (forall given count time,
     get_messages (Some given) count time self w =
       _request "get" (messages_args self given count time)
         (set_active_channel (Some given) self) w) /\
  (forall count time,
     exists msg,
       get_messages None count time self w = (Raise (ValueError msg), self, w)).
Proof.
  split; [|split; [|split; [|split]]].
  - intros data given reply_id.
    unfold send. unfold bind at 1, modify. unfold bind at 1, get.
    unfold bind at 1, lift. cbn [endpoints set_active_channel active_channel].
    rewrite endpoint_of_resolved. cbv zeta.
    unfold bind at 1. cbn [uid set_active_channel].
    destruct (format _ _) as [formatted|e].
    + match goal with
      | |- context [_request ?m ?a ?s w] =>
          pose proof (request_eq m a s w) as Hr;
          destruct (_request m a s w) as [[r s'] w']
      end.
      cbn [session set_active_channel] in Hr.
      split.
      * destruct (session self "post") as [| |method];
          [injection Hr as _ -> _; reflexivity
          |injection Hr as _ -> _; reflexivity|].
        cbv zeta in Hr.
        destruct (method _ _) as [resp|exc].
        -- destruct (status_code resp =? 200);
             [injection Hr as _ -> _; reflexivity|].
           destruct (listeners_get _ ERROR);
             injection Hr as _ -> _; reflexivity.
        -- destruct (listeners_get _ NETWORK_EXCEPTION);
             injection Hr as _ -> _; reflexivity.
      * intros formatted' method Hf Hm. injection Hf as <-.
        rewrite Hm in Hr. cbv zeta in Hr.
        destruct (method _ _) as [resp|exc].
        -- destruct (status_code resp =? 200);
             [injection Hr as _ _ ->; reflexivity|].
           destruct (listeners_get _ ERROR);
             injection Hr as _ _ ->; reflexivity.
        -- destruct (listeners_get _ NETWORK_EXCEPTION);
             injection Hr as _ _ ->; reflexivity.
    + split; [reflexivity|]. intros formatted method Hf. discriminate Hf.
  - intros data active reply_id Ha. apply send_uses_active, Ha.
  - intros data reply_id Ha.
    unfold send. unfold bind at 1. unfold bind at 1, get. rewrite Ha.
    reflexivity.
  - intros given count time.
    unfold get_messages. unfold bind at 1, modify. unfold bind at 1, get.
    unfold bind at 1, lift. cbn [endpoints set_active_channel].
    destruct (endpoint_resolved (endpoints self)) as (_ & _ & _ & _ & -> & _).
    reflexivity.
  - intros count time. unfold get_messages, bind, get, raise.
    destruct (active_channel self); eexists; reflexivity.
Qed.

Lemma channel_of_call_witness :
  let fresh := Chatroom.__init__ "http://h" (PStr "c1") PNone
                 (Mock.always (Mock.ok (PDict []))) in
  let room := set_active_channel (Some Mock.general_channel)
                (set_channels [Mock.general_channel] fresh) in
  (active_channel fresh = None /\
   send (Text "hi") None PNone fresh world0 =
     (Raise (ValueError missing_channel_message), fresh, world0)) /\
  (active_channel room = Some Mock.general_channel /\
   send (Text "hi") None PNone room world0 =
     send (Text "hi") (Some Mock.general_channel) PNone room world0).
Proof.
  cbv zeta. split.
  - split; [reflexivity|].
    destruct (channel_of_call
                (Chatroom.__init__ "http://h" (PStr "c1") PNone
                   (Mock.always (Mock.ok (PDict []))))
                world0) as (_ & _ & H & _ & _).
    apply H. reflexivity.
  - split; [reflexivity|].
    destruct (channel_of_call
                (set_active_channel (Some Mock.general_channel)
                   (set_channels [Mock.general_channel]
                      (Chatroom.__init__ "http://h" (PStr "c1") PNone
                         (Mock.always (Mock.ok (PDict []))))))
                world0) as (_ & H & _ & _ & _).
    apply H. reflexivity.
Defined.

(** ** The URL of send *)

Lemma format_brace_free (s : string) (kwargs : list (string * pyval)) :
  brace_free s = true -> format s kwargs = Return s.
Proof.
  unfold format. induction s as [|c rest IH]; intros H; [reflexivity|].
  cbn [brace_free] in H.
  apply andb_prop in H as [H Hrest]. apply andb_prop in H as [Ho Hc].
  apply negb_true_iff in Ho, Hc.
  cbn [format_from]. rewrite Ho, Hc, (IH Hrest). reflexivity.
Qed.

Lemma brace_free_app (a b : string) :
  brace_free (a ++ b) = brace_free a && brace_free b.
Proof.
  induction a as [|c a IH]; [reflexivity|].
  cbn [String.append brace_free]. rewrite IH, andb_assoc. reflexivity.
Qed.

Lemma run_base_urls (ops : list Run.op) (self : Chatroom.t) (w : World) :
  base_urls (fst (Run.run ops self w)) = base_urls self.
Proof.
  revert self w. induction ops as [|o rest IH]; intros self w; [reflexivity|].
  cbn [Run.run]. pose proof (step_moves o self w) as (_ & _ & Hb).
  destruct (Run.step o self w) as [self' w']. rewrite IH. exact Hb.
Qed.

Lemma send_url_when_wired (self : Chatroom.t) (w : World) (data : content)
    (channel : option Channel.t) (reply_id : pyval) (active : Channel.t) :
  EndpointContainer._url (endpoints self) = PStr (url self) ->
  brace_free (url self) = true ->
  brace_free (str (EndpointContainer._uid (endpoints self))) = true ->
  channel = Some active \/ channel = None /\ active_channel self = Some active ->
  send data channel reply_id self w =
    _request "post"
      {| ReqArgs.url :=
           url self ++
           (url self ++ "/api/v0/" ++ endpoint_of data ++ "/"
            ++ str (EndpointContainer._uid (endpoints self)));
         ReqArgs.headers := None;
         ReqArgs.json := Some (send_msg self data active reply_id) |}
      (set_active_channel (Some active) self) w.
Proof.
  intros Hwired Hurl Huid Hch.
  assert (E : send data channel reply_id self w =
              send data (Some active) reply_id self w).
  { destruct Hch as [->|[-> Ha]]; [reflexivity|]. apply send_uses_active, Ha. }
  rewrite E. unfold send. unfold bind at 1, modify. unfold bind at 1, get.
  unfold bind at 1, lift. cbn [endpoints set_active_channel active_channel].
  rewrite endpoint_of_resolved. cbv zeta.
  unfold bind at 1. cbn [uid set_active_channel url user_id].
  rewrite Hwired. change (str (PStr (url self))) with (url self).
  rewrite format_brace_free; [reflexivity|].
  rewrite !brace_free_app, Hurl, Huid. destruct data; reflexivity.
Qed.

(** C10 (as the claim states it, refuted).  With a base URL that holds a
    replacement field, the second [format] fills it in: the URL handed to
    the request is not the base URL followed by the resolved endpoint, and
    the base URL is in it once. *)
Lemma send_url_not_always_doubled :
  let room := Chatroom.__init__ "http://h/{chatroom_id}" (PStr "c1") PNone
                (Mock.always (Mock.ok (PDict []))) in
  let '(_, _, w') :=
    send (Text "hi") (Some Mock.general_channel) PNone room world0 in
  EndpointContainer.__getattr__ (endpoints room) "messages" =
    Return "http://h/{chatroom_id}/api/v0/messages/c1" /\
  map (fun c => ReqArgs.url (snd c)) (calls w') =
    ["http://h/{chatroom_id}" ++ "http://h/c1/api/v0/messages/c1"] /\
  map (fun c => ReqArgs.url (snd c)) (calls w') <>
    [url room ++ "http://h/{chatroom_id}/api/v0/messages/c1"].
Proof.
  vm_compute. split; [reflexivity|]. split; [reflexivity|]. discriminate.
Qed.

(** C10 (amended).  On a chatroom reached from its constructor by any
    calls, whose base URL and chatroom identifier hold no brace, a [send]
    that has a channel to send in hands [_request] the URL made of the
    base URL followed by the resolved endpoint, which itself starts with
    the base URL; so it is for text (messages) and for bytes (files). *)
Theorem send_url_doubled (url0 : string) (uid0 name0 : pyval)
    (session0 : Session) (ops : list Run.op) (w0 : World)
    (data : content) (channel : option Channel.t) (reply_id : pyval)
    (active : Channel.t) :
  let '(self, w) := Run.run ops (Chatroom.__init__ url0 uid0 name0 session0) w0 in
  brace_free (url self) = true ->
  brace_free (str (EndpointContainer._uid (endpoints self))) = true ->
  channel = Some active \/ channel = None /\ active_channel self = Some active ->
  EndpointContainer.__getattr__ (endpoints self)
    (match data with Bytes _ => "files" | Text _ => "messages" end) =
    Return (url self ++ "/api/v0/" ++ endpoint_of data ++ "/"
            ++ str (EndpointContainer._uid (endpoints self))) /\
  send data channel reply_id self w =
    _request "post"
      {| ReqArgs.url :=
           url self ++
           (url self ++ "/api/v0/" ++ endpoint_of data ++ "/"
            ++ str (EndpointContainer._uid (endpoints self)));
         ReqArgs.headers := None;
         ReqArgs.json := Some (send_msg self data active reply_id) |}
      (set_active_channel (Some active) self) w.
Proof.
  pose proof (run_base_urls ops (Chatroom.__init__ url0 uid0 name0 session0) w0) as Hb.
  destruct (Run.run ops _ w0) as [self w]. cbn [fst] in Hb.
  assert (Hwired : EndpointContainer._url (endpoints self) = PStr (url self)).
  { unfold base_urls in Hb. cbn in Hb. injection Hb as -> ->. reflexivity. }
  intros Hurl Huid Hch. split.
  - rewrite endpoint_of_resolved, Hwired. reflexivity.
  - apply send_url_when_wired; assumption.
Qed.

Lemma send_url_doubled_witness :
  let '(_, _, w') :=
    send (Bytes "010") None PNone
      (fst (Run.run [Run.Create "alice" "secret"]
              (Chatroom.__init__ "http://h" PNone (PStr "x")
                 (Mock.always (Mock.ok (Mock.created [Mock.general]))))
              world0))
      (snd (Run.run [Run.Create "alice" "secret"]
              (Chatroom.__init__ "http://h" PNone (PStr "x")
                 (Mock.always (Mock.ok (Mock.created [Mock.general]))))
              world0)) in
  map (fun c => ReqArgs.url (snd c)) (calls w') =
    ["http://h/api/v0/chatroom"; "http://h" ++ "http://h/api/v0/files/c1"].
Proof.
  generalize (send_url_doubled "http://h" PNone (PStr "x")
                (Mock.always (Mock.ok (Mock.created [Mock.general])))
                [Run.Create "alice" "secret"] world0
                (Bytes "010") None PNone Mock.general_channel).
  destruct (Run.run _ _ world0) as [self w] eqn:E.
  cbn [fst snd]. intros H.
  vm_compute in E. injection E as <- <-.
  destruct (H eq_refl eq_refl (or_intror (conj eq_refl eq_refl))) as [_ ->].
  vm_compute. reflexivity.
Defined.

(** * Further properties of the code *)

(** ** _request: transport failures, and how much one call does *)

(** X1.  When the HTTP call itself raises, [_request] hands the exception
    to the NETWORK_EXCEPTION handler with the method name and the
    arguments and returns [None], unless the handler raises: then that
    leaves the call.  Without such a handler it raises the exception of
    the HTTP call.  An ERROR handler plays no part in it. *)
Theorem request_transport_failure (method_name : string) (req_args : ReqArgs.t)
    (self : Chatroom.t) (w : World) (method : nat -> ReqArgs.t -> reply)
    (exception : exn) :
  session self method_name = AttrMethod method ->
  method (List.length (calls w)) req_args = Throws exception ->
  let '(result, self', w') := _request method_name req_args self w in
  self' = self /\
  calls w' = (calls w ++ [(method_name, req_args)])%list /\
  match listeners_get (_listeners self) NETWORK_EXCEPTION with
  | Some handler =>
      match raised (ExceptionCall handler exception method_name req_args) with
      | None => result = Return PNone
      | Some e => result = Raise e
      end /\
      invoked w' =
        (invoked w ++ [ExceptionCall handler exception method_name req_args])%list
  | None => result = Raise exception /\ invoked w' = invoked w
  end.
Proof.
  intros Hm Hc. rewrite request_eq, Hm. cbv zeta. rewrite Hc.
  destruct (listeners_get (_listeners self) NETWORK_EXCEPTION) as [handler|];
    [|repeat split; reflexivity].
  unfold handled.
  destruct (raised (ExceptionCall handler exception method_name req_args));
    repeat split; reflexivity.
Qed.

Lemma request_transport_failure_witness :
  let self := set_listeners [(ERROR, Mock.quiet 7); (NETWORK_EXCEPTION, Mock.quiet 8)]
                (Chatroom.__init__ "http://h" PNone PNone
                   (Mock.always (Throws (Transport "timeout")))) in
  let '(result, _, w') := _request "get" Mock.args self world0 in
  result = Return PNone /\
  invoked w' = [ExceptionCall (Mock.quiet 8) (Transport "timeout") "get" Mock.args].
Proof.
  cbv zeta.
  generalize (request_transport_failure "get" Mock.args
                (set_listeners [(ERROR, Mock.quiet 7); (NETWORK_EXCEPTION, Mock.quiet 8)]
                   (Chatroom.__init__ "http://h" PNone PNone
                      (Mock.always (Throws (Transport "timeout")))))
                world0 (fun _ _ => Throws (Transport "timeout"))
                (Transport "timeout") eq_refl eq_refl).
  destruct (_request _ _ _ _) as [[result self'] w'].
  cbn [listeners_get _listeners set_listeners Event_eqb].
  intros (_ & _ & Hr & Hi). split; assumption.
Defined.

(** X2.  One call of [_request] makes at most one HTTP call (it never
    tries again) and calls at most one callback; it calls a callback only
    after having made the HTTP call, and then ends as the callback does:
    it returns [None] when the callback returned, and raises what the
    callback raised.  It changes nothing of the chatroom and starts no
    thread. *)
Theorem request_at_most_once (method_name : string) (req_args : ReqArgs.t)
    (self : Chatroom.t) (w : World) :
  let '(result, self', w') := _request method_name req_args self w in
  self' = self /\
  threads w' = threads w /\
  (calls w' = calls w \/
   calls w' = (calls w ++ [(method_name, req_args)])%list) /\
  (invoked w' = invoked w \/
   exists i, invoked w' = (invoked w ++ [i])%list /\
             calls w' = (calls w ++ [(method_name, req_args)])%list /\
             match raised i with
             | None => result = Return PNone
             | Some e => result = Raise e
             end).
Proof.
  assert (quiet : forall (r : outcome pyval) (w1 : World),
            invoked w1 = invoked w -> threads w1 = threads w ->
            calls w1 = calls w \/
            calls w1 = (calls w ++ [(method_name, req_args)])%list ->
            let '(result, self', w') := (r, self, w1) in
            self' = self /\ threads w' = threads w /\
            (calls w' = calls w \/
             calls w' = (calls w ++ [(method_name, req_args)])%list) /\
            (invoked w' = invoked w \/
             exists i, invoked w' = (invoked w ++ [i])%list /\
                       calls w' = (calls w ++ [(method_name, req_args)])%list /\
                       match raised i with
                       | None => result = Return PNone
                       | Some e => result = Raise e
                       end))
    by (intros r w1 Hi Ht Hc; repeat split; auto).
  assert (loud : forall (i : invocation),
            let '(result, self', w') :=
              (handled i, self,
               called_back (logged w method_name req_args) i) in
            self' = self /\ threads w' = threads w /\
            (calls w' = calls w \/
             calls w' = (calls w ++ [(method_name, req_args)])%list) /\
            (invoked w' = invoked w \/
             exists i, invoked w' = (invoked w ++ [i])%list /\
                       calls w' = (calls w ++ [(method_name, req_args)])%list /\
                       match raised i with
                       | None => result = Return PNone
                       | Some e => result = Raise e
                       end)).
  { intros i. split; [reflexivity|]. split; [reflexivity|].
    split; [right; reflexivity|]. right. exists i.
    split; [reflexivity|]. split; [reflexivity|].
    unfold handled. destruct (raised i); reflexivity. }
  rewrite request_eq.
  destruct (session self method_name) as [| |method];
    [apply quiet; auto|apply quiet; auto|].
  cbv zeta. destruct (method _ _) as [response|exception].
  - destruct (status_code response =? 200); [apply quiet; cbn; auto|].
    destruct (listeners_get _ ERROR); [apply loud|apply quiet; cbn; auto].
  - destruct (listeners_get _ NETWORK_EXCEPTION);
      [apply loud|apply quiet; cbn; auto].
Qed.

(** X26.  The method is looked up before the [try].  For a name the
    session has nothing under, [getattr] raises [AttributeError]; for a
    name bound to [None], the guard raises its [ValueError]; in both cases
    no HTTP call is made and no handler is called, whatever is
    registered.  For any other attribute the call is made. *)
Theorem request_lookup (method_name : string) (req_args : ReqArgs.t)
    (self : Chatroom.t) (w : World) :
  match session self method_name with
  | AttrMissing =>
      _request method_name req_args self w =
        (Raise (AttributeError method_name), self, w)
  | AttrNone =>
      _request method_name req_args self w =
        (Raise (ValueError (no_method_message method_name)), self, w)
  | AttrMethod _ =>
      calls (snd (_request method_name req_args self w)) =
        (calls w ++ [(method_name, req_args)])%list
  end.
Proof.
  rewrite request_eq.
  destruct (session self method_name) as [| |method]; try reflexivity.
  cbv zeta. destruct (method _ _) as [response|exception].
  - destruct (status_code response =? 200); [reflexivity|].
    destruct (listeners_get _ ERROR); reflexivity.
  - destruct (listeners_get _ NETWORK_EXCEPTION); reflexivity.
Qed.

(** ** EndpointContainer *)

(** X3. Each of the six endpoint names resolves, whatever the base URL
    and the identifier are, to the base URL followed by [/api/v0] and the
    path of the endpoint, with the identifier as [str] prints it ([None]
    when there is none yet); any other name raises [KeyError]. *)
Theorem endpoints_resolve (e : EndpointContainer.t) :
  (forall item path,
     In (item, path)
        [("login", "/login/"); ("files", "/files/");
         ("messages", "/messages/"); ("channels", "/channels/")] ->
     EndpointContainer.__getattr__ e item =
       Return (str (EndpointContainer._url e) ++ "/api/v0" ++ path
               ++ str (EndpointContainer._uid e))) /\
  EndpointContainer.__getattr__ e "base" =
    Return (str (EndpointContainer._url e) ++ "/api/v0") /\
  EndpointContainer.__getattr__ e "chatroom" =
    Return (str (EndpointContainer._url e) ++ "/api/v0/chatroom") /\
  (EndpointContainer._uid e = PNone ->
   EndpointContainer.__getattr__ e "messages" =
     Return (str (EndpointContainer._url e) ++ "/api/v0/messages/None")) /\
  (forall item,
     ~ In item ["base"; "login"; "chatroom"; "files"; "messages"; "channels"] ->
     EndpointContainer.__getattr__ e item = Raise (KeyError item)).
Proof.
  destruct (endpoint_resolved e) as (Hb & Hc & Hl & Hf & Hm & Hch).
  split; [|split; [exact Hb|split; [exact Hc|split]]].
  - intros item path [H|[H|[H|[H|[]]]]]; injection H as <- <-.
    + exact Hl.
    + exact Hf.
    + exact Hm.
    + exact Hch.
  - intros Hu. rewrite Hm, Hu. reflexivity.
  - intros item Hn.
    unfold EndpointContainer.__getattr__, EndpointContainer._items.
    cbn [EndpointContainer.items_get].
    repeat match goal with
    | |- context [String.eqb ?a item] =>
        destruct (String.eqb_spec a item) as [<-|_];
          [exfalso; apply Hn; cbn; tauto|]
    | |- context [String.eqb item ?a] =>
        destruct (String.eqb_spec item a) as [->|_];
          [exfalso; apply Hn; cbn; tauto|]
    end.
    reflexivity.
Qed.

Lemma endpoints_resolve_witness :
  EndpointContainer.__getattr__ (EndpointContainer.__init__ "http://h" PNone)
    "messages" = Return "http://h/api/v0/messages/None" /\
  EndpointContainer.__getattr__ (EndpointContainer.__init__ "http://h" PNone)
    "users" = Raise (KeyError "users").
Proof.
  destruct (endpoints_resolve (EndpointContainer.__init__ "http://h" PNone))
    as (_ & _ & _ & Hnone & Hother).
  split.
  - apply Hnone. reflexivity.
  - apply Hother. cbn. intros [H|[H|[H|[H|[H|[H|[]]]]]]]; discriminate H.
Defined.

(** X4.  After [set("uid", value)] the endpoints that carry the
    identifier resolve with the new one, and the base URL is the one it
    was. *)
Theorem endpoint_set_uid_then_resolve (e : EndpointContainer.t) (value : pyval) :
  exists e',
    EndpointContainer.set e "uid" value = Return e' /\
    EndpointContainer.__getattr__ e' "base" = EndpointContainer.__getattr__ e "base" /\
    forall item path,
      In (item, path)
         [("login", "/login/"); ("files", "/files/");
          ("messages", "/messages/"); ("channels", "/channels/")] ->
      EndpointContainer.__getattr__ e' item =
        Return (str (EndpointContainer._url e) ++ "/api/v0" ++ path ++ str value).
Proof.
  eexists. split; [apply endpoint_set_uid|].
  match goal with |- context [EndpointContainer.__getattr__ ?x "base"] => set (e' := x) end.
  destruct (endpoint_resolved e) as (Hb & _).
  destruct (endpoint_resolved e') as (Hb' & _ & Hl & Hf & Hm & Hch).
  split; [rewrite Hb, Hb'; reflexivity|].
  intros item path [H|[H|[H|[H|[]]]]]; injection H as <- <-; assumption.
Qed.

(** ** Channel.from_dict and User *)

(** X5.  [Channel.from_dict] succeeds exactly on a dict that has the four
    keys [channelID], [channel_name], [public] and [permissions], and the
    channel carries their values as they are; other keys are ignored.  So
    the dict made of the fields of a channel gives the channel back. *)
Theorem channel_from_dict_iff (data : pyval) (c : Channel.t) :
  (Channel.from_dict data = Return c <->
   exists d,
     data = PDict d /\
     dict_get "channelID" d = Some (Channel.uid c) /\
     dict_get "channel_name" d = Some (Channel.name c) /\
     dict_get "public" d = Some (Channel.public c) /\
     dict_get "permissions" d = Some (Channel.permissions c)) /\
  Channel.from_dict
    (PDict [("channelID", Channel.uid c); ("channel_name", Channel.name c);
            ("public", Channel.public c);
            ("permissions", Channel.permissions c)]) = Return c.
Proof.
  split; [|destruct c; reflexivity].
  split.
  - unfold Channel.from_dict.
    destruct data as [| | | | | |d|]; try discriminate.
    cbn [getitem].
    destruct (dict_get "channelID" d) as [u|] eqn:E1; [|discriminate].
    destruct (dict_get "channel_name" d) as [n|] eqn:E2; [|discriminate].
    destruct (dict_get "public" d) as [p|] eqn:E3; [|discriminate].
    destruct (dict_get "permissions" d) as [m|] eqn:E4; [|discriminate].
    intros H. injection H as <-. exists d. repeat split; assumption.
  - intros (d & -> & Hu & Hn & Hp & Hm).
    unfold Channel.from_dict. cbn [getitem]. rewrite Hu, Hn, Hp, Hm.
    destruct c; reflexivity.
Qed.

(** X6.  A dict that lacks one of the four keys makes [Channel.from_dict]
    raise [KeyError] with the first key missing, in the order
    [channelID], [channel_name], [public], [permissions]; anything that is
    not a dict makes it raise [TypeError]. *)
Theorem channel_from_dict_errors (data : pyval) :
  match data with
  | PDict d =>
      (dict_get "channelID" d = None ->
       Channel.from_dict data = Raise (KeyError "channelID")) /\
      (dict_get "channelID" d <> None ->
       dict_get "channel_name" d = None ->
       Channel.from_dict data = Raise (KeyError "channel_name")) /\
      (dict_get "channelID" d <> None ->
       dict_get "channel_name" d <> None ->
       dict_get "public" d = None ->
       Channel.from_dict data = Raise (KeyError "public")) /\
      (dict_get "channelID" d <> None ->
       dict_get "channel_name" d <> None ->
       dict_get "public" d <> None ->
       dict_get "permissions" d = None ->
       Channel.from_dict data = Raise (KeyError "permissions"))
  | _ => exists msg, Channel.from_dict data = Raise (TypeError msg)
  end.
Proof.
  destruct data as [| | | | | |d|]; try (eexists; reflexivity).
  unfold Channel.from_dict. cbn [getitem].
  destruct (dict_get "channelID" d);
    [|repeat split; intros; congruence].
  destruct (dict_get "channel_name" d);
    [|repeat split; intros; congruence].
  destruct (dict_get "public" d);
    [|repeat split; intros; congruence].
  destruct (dict_get "permissions" d);
    repeat split; intros; congruence.
Qed.

Lemma channel_from_dict_errors_witness :
  Channel.from_dict
    (PDict [("channelID", PStr "ch1"); ("permissions", PDict [])]) =
  Raise (KeyError "channel_name").
Proof.
  destruct (channel_from_dict_errors
              (PDict [("channelID", PStr "ch1"); ("permissions", PDict [])]))
    as (_ & H & _).
  apply H; [discriminate|reflexivity].
Defined.

Lemma join_items_iff (items : list pyval) (l : list string) (i : nat) :
  User.join_items i items = Return l <-> items = map PStr l.
Proof.
  revert l i. induction items as [|v rest IH]; intros l i.
  - cbn. split.
    + intros H. injection H as <-. reflexivity.
    + destruct l; [reflexivity|discriminate].
  - cbn [User.join_items]. destruct v as [| | |s| | | |];
      try (split; [discriminate|destruct l; discriminate]).
    destruct (User.join_items (S i) rest) as [l'|e] eqn:E.
    + split.
      * intros H. injection H as <-. cbn.
        f_equal. apply (IH l' (S i)). exact E.
      * destruct l as [|s' l'']; [discriminate|].
        cbn. intros H. injection H as -> Hr.
        apply (IH l'' (S i)) in Hr. rewrite E in Hr. injection Hr as ->.
        reflexivity.
    + split; [discriminate|].
      destruct l as [|s' l'']; [discriminate|].
      cbn. intros H. injection H as -> Hr.
      apply (IH l'' (S i)) in Hr. rewrite E in Hr. discriminate Hr.
Qed.

(** X7.  [User.get_color] returns exactly when [color] is a dict whose
    values are all strings, and then gives them joined with [;] in the
    order of the dict (the empty string for an empty dict). *)
Theorem get_color_returns_iff (self : User.t) (s : string) :
  User.get_color self = Return s <->
  exists d l,
    User.color self = PDict d /\
    map snd d = map PStr l /\
    s = String.concat ";" l.
Proof.
  unfold User.get_color, User.values, User.join.
  destruct (User.color self) as [| | | | | |d|].
  1-6, 8: split; [discriminate|intros (d' & l' & H & _); discriminate H].
  destruct (User.join_items 0 (map snd d)) as [l|e] eqn:E.
  - apply join_items_iff in E. split.
    + intros H. injection H as <-. exists d, l. repeat split. exact E.
    + intros (d' & l' & Hd & Hl & ->). injection Hd as <-.
      rewrite E in Hl.
      assert (l = l') as ->; [|reflexivity].
      clear -Hl. revert l' Hl. induction l as [|a l IH]; intros [|b l'] H;
        try discriminate; [reflexivity|].
      cbn in H. injection H as -> H. f_equal. apply IH, H.
  - split; [discriminate|].
    intros (d' & l' & Hd & Hl & _). injection Hd as <-.
    apply (join_items_iff _ _ 0%nat) in Hl. rewrite E in Hl. discriminate Hl.
Qed.

(** X8.  With the colour the class declares, a dict of ints, and at
    least one component, [User.get_color] raises [TypeError] at the first
    component: [join] takes strings only. *)
Theorem get_color_of_ints_raises (self : User.t) (key : string) (z : Z)
    (rest : list (string * pyval)) :
  User.color self = PDict ((key, PInt z) :: rest) ->
  User.get_color self =
    Raise (TypeError "sequence item 0: expected str instance, int found").
Proof.
  intros H. unfold User.get_color. rewrite H. reflexivity.
Qed.

Lemma get_color_of_ints_raises_witness :
  User.from_dict
    (PDict [("userID", PStr "u1"); ("username", PStr "alice");
            ("color", PDict [("r", PInt 255); ("g", PInt 0); ("b", PInt 0)])]) =
    Return {| User.uid := PStr "u1"; User.username := PStr "alice";
              User.color := PDict [("r", PInt 255); ("g", PInt 0); ("b", PInt 0)] |} /\
  User.get_color
    {| User.uid := PStr "u1"; User.username := PStr "alice";
       User.color := PDict [("r", PInt 255); ("g", PInt 0); ("b", PInt 0)] |} =
    Raise (TypeError "sequence item 0: expected str instance, int found").
Proof.
  split; [reflexivity|].
  apply (get_color_of_ints_raises _ "r" 255 [("g", PInt 0); ("b", PInt 0)]).
  reflexivity.
Defined.

(** ** What a call leaves alone *)

Section Footprint.

Variable R : Chatroom.t * World -> Chatroom.t * World -> Prop.
Hypothesis R_refl : forall a, R a a.
Hypothesis R_trans : forall a b c, R a b -> R b c -> R a c.

Lemma sat_ret {A} (a : A) self w : sat R (ret a) self w.
Proof. apply R_refl. Qed.

Lemma sat_raise {A} (e : exn) self w : sat R (@raise A e) self w.
Proof. apply R_refl. Qed.

Lemma sat_lift {A} (o : outcome A) self w : sat R (lift o) self w.
Proof. apply R_refl. Qed.

Lemma sat_get {A} (k : Chatroom.t -> M A) self w :
  sat R (k self) self w -> sat R (bind get k) self w.
Proof. intros H; exact H. Qed.

Lemma sat_modify (f : Chatroom.t -> Chatroom.t) self w :
  R (self, w) (f self, w) -> sat R (modify f) self w.
Proof. intros H; exact H. Qed.

Lemma sat_bind {A B} (m : M A) (k : A -> M B) self w :
  sat R m self w ->
  (forall a self1 w1, sat R (k a) self1 w1) ->
  sat R (bind m k) self w.
Proof.
  unfold sat, bind, Run.after. intros Hm Hk.
  specialize (fun a => Hk a (snd (fst (m self w))) (snd (m self w))).
  destruct (m self w) as [[[a|e] self1] w1]; cbn [fst snd] in *.
  - eapply R_trans; [exact Hm|apply Hk].
  - exact Hm.
Qed.

End Footprint.

(** Walks through the body of a method: what is left are the assignments
    and the primitives that the relation has to allow. *)
Ltac walk Rrefl Rtrans Rrequest Ringest :=
  repeat first
    [ match goal with
      | |- sat _ (bind get _) _ _ => apply sat_get; cbv beta
      | |- sat _ (bind _ _) _ _ => apply (sat_bind _ Rtrans); [|intros ? ? ?]
      | |- sat _ (ret _) _ _ => apply (sat_ret _ Rrefl)
      | |- sat _ (raise _) _ _ => apply (sat_raise _ Rrefl)
      | |- sat _ (lift _) _ _ => apply (sat_lift _ Rrefl)
      | |- sat _ (_request _ _) _ _ => apply Rrequest
      | |- sat _ (ingest _) _ _ => apply Ringest
      | |- sat _ (modify _) _ _ => apply sat_modify
      | |- sat _ (match ?x with _ => _ end) _ _ => destruct x eqn:?
      end
    | progress cbv zeta
    | progress unfold create, create_channel, login, get_messages, send,
        subscribe, _update_channels, update_from, _run ].

Lemma on_state_refl P : (forall s, P s s) -> forall a, on_state P a a.
Proof. intros H a. apply H. Qed.

Lemma on_state_trans P :
  (forall a b c, P a b -> P b c -> P a c) ->
  forall a b c, on_state P a b -> on_state P b c -> on_state P a c.
Proof. intros H a b c. apply H. Qed.

Lemma request_on_state P :
  (forall s, P s s) ->
  forall method_name req_args self w,
    sat (on_state P) (_request method_name req_args) self w.
Proof.
  intros H method_name req_args self w. unfold sat, on_state, Run.after.
  cbn [fst]. rewrite request_keeps_self. apply H.
Qed.

Lemma same_refl {X} (f : Chatroom.t -> X) s : same f s s.
Proof. reflexivity. Qed.

Lemma same_trans {X} (f : Chatroom.t -> X) a b c :
  same f a b -> same f b c -> same f a c.
Proof. unfold same. congruence. Qed.

Lemma sticky_refl s : sticky s s.
Proof. intros c H; exact H. Qed.

Lemma sticky_trans a b c : sticky a b -> sticky b c -> sticky a c.
Proof. unfold sticky. auto. Qed.

Lemma ledger_refl w : ledger w w.
Proof.
  repeat split; try (exists []; rewrite app_nil_r; reflexivity). lia.
Qed.

Lemma ledger_trans a b c : ledger a b -> ledger b c -> ledger a c.
Proof.
  intros ((n1 & H1) & (i1 & I1) & L1 & T1) ((n2 & H2) & (i2 & I2) & L2 & T2).
  repeat split.
  - exists (n1 ++ n2)%list. rewrite H2, H1, app_assoc. reflexivity.
  - exists (i1 ++ i2)%list. rewrite I2, I1, app_assoc. reflexivity.
  - lia.
  - congruence.
Qed.

Lemma request_ledger method_name req_args self w :
  sat (on_world ledger) (_request method_name req_args) self w.
Proof.
  unfold sat, on_world, Run.after. cbn [snd].
  pose proof (request_eq method_name req_args self w) as E.
  destruct (_request method_name req_args self w) as [[r s] w'].
  cbn [snd].
  assert (one : ledger w (logged w method_name req_args)).
  { repeat split; cbn; eauto.
    - exists []. rewrite app_nil_r. reflexivity.
    - rewrite length_app. lia. }
  assert (two : forall i,
            ledger w (called_back (logged w method_name req_args) i)).
  { intros i. repeat split; cbn; eauto.
    rewrite !length_app. cbn. lia. }
  destruct (session self method_name) as [| |method];
    [injection E as _ _ ->; apply ledger_refl
    |injection E as _ _ ->; apply ledger_refl|].
  cbv zeta in E. destruct (method _ _) as [response|exception].
  - destruct (status_code response =? 200);
      [injection E as _ _ ->; exact one|].
    destruct (listeners_get _ ERROR); injection E as _ _ ->;
      [apply two|exact one].
  - destruct (listeners_get _ NETWORK_EXCEPTION); injection E as _ _ ->;
      [apply two|exact one].
Qed.

Section StepFootprint.

(** A relation on the chatroom that every assignment but, maybe, the one
    of the listeners respects. *)
Variable P : Chatroom.t -> Chatroom.t -> Prop.
Hypothesis P_refl : forall s, P s s.
Hypothesis P_trans : forall a b c, P a b -> P b c -> P a c.
Hypothesis P_channels : forall s v, P s (set_channels v s).

Lemma ingest_on_state items self w : sat (on_state P) (ingest items) self w.
Proof.
  revert self w. induction items as [|data rest IH]; intros self w.
  - apply on_state_refl, P_refl.
  - cbn [ingest].
    walk (on_state_refl P P_refl) (on_state_trans P P_trans)
         (request_on_state P P_refl) IH.
    all: apply P_channels.
Qed.

End StepFootprint.

(** Closes what [walk] leaves for a relation on the chatroom whose
    assignments can be checked by computing. *)
Ltac by_fields :=
  cbv [sat on_state on_world Run.after start_thread modify fst snd same sticky];
  cbn; try reflexivity; try (intros; congruence).

Ltac as_sat :=
  match goal with
  | |- ?R (?s, ?w) (Run.after (?m ?s ?w)) => change (sat R m s w)
  end.

(** The footprint of one call, for a relation on the chatroom that the
    loop of [_update_channels] respects. *)
Ltac step_on_state P Prefl Ptrans Hingest :=
  as_sat;
  walk (on_state_refl P Prefl) (on_state_trans P Ptrans)
       (request_on_state P Prefl) Hingest;
  by_fields.

Lemma step_fixed (o : Run.op) (self : Chatroom.t) (w : World) :
  on_state (same (fun s => (fixed_part s, session s))) (self, w) (Run.step o self w).
Proof.
  pose proof (ingest_on_state _ (same_refl (fun s => (fixed_part s, session s)))
                (same_trans _) (fun s v => eq_refl)) as Hi.
  destruct o; cbn [Run.step];
    step_on_state (same (fun s => (fixed_part s, session s)))
                  (same_refl (fun s => (fixed_part s, session s)))
                  (same_trans (fun s => (fixed_part s, session s))) Hi.
Qed.

Lemma step_listeners (o : Run.op) (self : Chatroom.t) (w : World) :
  match o with
  | Run.Subscribe _ _ => True
  | _ => on_state (same _listeners) (self, w) (Run.step o self w)
  end.
Proof.
  pose proof (ingest_on_state _ (same_refl _listeners)
                (same_trans _) (fun s v => eq_refl)) as Hi.
  destruct o; cbn [Run.step]; try exact I;
    step_on_state (same _listeners) (same_refl _listeners)
                  (same_trans _listeners) Hi.
Qed.

Lemma step_identity (o : Run.op) (self : Chatroom.t) (w : World) :
  match o with
  | Run.Create _ _ => True
  | _ => on_state (same (fun s => (uid s, name s, endpoints s)))
           (self, w) (Run.step o self w)
  end.
Proof.
  pose proof (ingest_on_state _ (same_refl (fun s => (uid s, name s, endpoints s)))
                (same_trans _) (fun s v => eq_refl)) as Hi.
  destruct o; cbn [Run.step]; try exact I;
    step_on_state (same (fun s => (uid s, name s, endpoints s)))
                  (same_refl (fun s => (uid s, name s, endpoints s)))
                  (same_trans (fun s => (uid s, name s, endpoints s))) Hi.
Qed.

Lemma step_user_id (o : Run.op) (self : Chatroom.t) (w : World) :
  match o with
  | Run.Create _ _ | Run.Login _ _ => True
  | _ => on_state (same user_id) (self, w) (Run.step o self w)
  end.
Proof.
  pose proof (ingest_on_state _ (same_refl user_id)
                (same_trans _) (fun s v => eq_refl)) as Hi.
  destruct o; cbn [Run.step]; try exact I;
    step_on_state (same user_id) (same_refl user_id) (same_trans user_id) Hi.
Qed.

Lemma step_sticky (o : Run.op) (self : Chatroom.t) (w : World) :
  Run.given o = None ->
  on_state sticky (self, w) (Run.step o self w).
Proof.
  pose proof (ingest_on_state _ sticky_refl sticky_trans
                (fun s v c H => H)) as Hi.
  intros Hg.
  destruct o; cbn [Run.step]; cbn [Run.given] in Hg; try subst channel;
    step_on_state sticky sticky_refl sticky_trans Hi.
Qed.

Lemma on_world_refl P : (forall w, P w w) -> forall a, on_world P a a.
Proof. intros H a. apply H. Qed.

Lemma on_world_trans P :
  (forall a b c, P a b -> P b c -> P a c) ->
  forall a b c, on_world P a b -> on_world P b c -> on_world P a c.
Proof. intros H a b c. apply H. Qed.

Lemma ingest_ledger items self w : sat (on_world ledger) (ingest items) self w.
Proof.
  revert self w. induction items as [|data rest IH]; intros self w.
  - apply on_world_refl, ledger_refl.
  - cbn [ingest].
    walk (on_world_refl ledger ledger_refl) (on_world_trans ledger ledger_trans)
         request_ledger IH.
    all: apply ledger_refl.
Qed.

Lemma step_ledger (o : Run.op) (self : Chatroom.t) (w : World) :
  match o with
  | Run.Subscribe _ _ => True
  | _ => on_world ledger (self, w) (Run.step o self w)
  end.
Proof.
  destruct o; cbn [Run.step]; try exact I; as_sat;
    walk (on_world_refl ledger ledger_refl) (on_world_trans ledger ledger_trans)
         request_ledger ingest_ledger;
    apply ledger_refl.
Qed.

(** What [subscribe] does, in one piece. *)
Lemma subscribe_eq (event : Event) (cb : callback) (self : Chatroom.t) (w : World) :
  subscribe event cb self w =
  (Return tt,
   set_listeners (listeners_set (_listeners self) event cb) self,
   {| calls := calls w; invoked := invoked w;
      threads := if negb (_is_looping self) && starts_loop event
                 then threads w ++ [uid self] else threads w |}).
Proof.
  unfold subscribe, _run, starts_loop. unfold bind, get, modify, start_thread, ret.
  cbn [_is_looping set_listeners uid].
  destruct (negb (_is_looping self) && _); [reflexivity|].
  destruct w; reflexivity.
Qed.

(** X9.  What one call on a chatroom leaves alone.  No call changes the
    base URL, the session, the polling interval or [_is_looping]; only
    [subscribe] changes the listeners or starts a thread; only [create]
    changes [uid], [name] and the endpoints; only [create] and [login]
    change [user_id]. *)
Theorem call_footprint (o : Run.op) (self : Chatroom.t) (w : World) :
  let '(self', w') := Run.step o self w in
  url self' = url self /\
  session self' = session self /\
  interval self' = interval self /\
  _is_looping self' = _is_looping self /\
  match o with
  | Run.Subscribe _ _ => True
  | _ => _listeners self' = _listeners self /\ threads w' = threads w
  end /\
  match o with
  | Run.Create _ _ => True
  | _ => uid self' = uid self /\ name self' = name self /\
         endpoints self' = endpoints self
  end /\
  match o with
  | Run.Create _ _ | Run.Login _ _ => True
  | _ => user_id self' = user_id self
  end.
Proof.
  pose proof (step_fixed o self w) as Hf.
  pose proof (step_listeners o self w) as Hl.
  pose proof (step_identity o self w) as Hi.
  pose proof (step_user_id o self w) as Hu.
  pose proof (step_ledger o self w) as Hw.
  destruct (Run.step o self w) as [self' w'].
  unfold on_state, on_world, same, fixed_part, ledger in *. cbn [fst snd] in *.
  injection Hf as Hurl Hint Hloop Hses.
  do 4 (split; [assumption|]).
  destruct o; repeat split; try congruence; try tauto.
Qed.

Lemma run_sticky (ops : list Run.op) (self : Chatroom.t) (w : World) :
  Forall (fun o => Run.given o = None) ops ->
  sticky self (fst (Run.run ops self w)).
Proof.
  revert self w. induction ops as [|o rest IH]; intros self w Hall.
  - apply sticky_refl.
  - inversion Hall as [|? ? Ho Hrest]; subst. cbn [Run.run].
    pose proof (step_sticky o self w Ho) as Hs.
    destruct (Run.step o self w) as [self' w']. unfold on_state in Hs.
    cbn [fst] in Hs. eapply sticky_trans; [exact Hs|apply IH, Hrest].
Qed.

(** X10.  Once a chatroom has an active channel, calls that are not given
    a channel keep it: [_update_channels], and so [create], [login] and
    [create_channel], choose an active channel only when there is none,
    and [get_messages] and [send] replace it only by a channel they are
    given. *)
Theorem active_channel_stays (ops : list Run.op) (self : Chatroom.t)
    (w : World) (c : Channel.t) :
  active_channel self = Some c ->
  Forall (fun o => Run.given o = None) ops ->
  active_channel (fst (Run.run ops self w)) = Some c.
Proof.
  intros Ha Hall. apply (run_sticky ops self w Hall), Ha.
Qed.

Lemma active_channel_stays_witness :
  active_channel
    (fst (Run.run [Run.Login "u1" "pw"; Run.Send (Text "hi") None PNone]
            (set_active_channel (Some Mock.renamed_channel)
               (Chatroom.__init__ "http://h" (PStr "c1") PNone
                  (Mock.scripted [Mock.ok (PDict []);
                                  Mock.ok (PList [Mock.general])])))
            world0)) = Some Mock.renamed_channel.
Proof.
  apply active_channel_stays; [reflexivity|].
  repeat constructor.
Defined.

Lemma grown_app l l' : grown l l' -> exists extra, l' = (l ++ extra)%list.
Proof.
  induction 1 as [l|l c l' Hc H [extra ->]].
  - exists []. rewrite app_nil_r. reflexivity.
  - exists (c :: extra). rewrite <- app_assoc. reflexivity.
Qed.

(** X11.  No call removes a channel or moves one: over any sequence of
    calls, the channel list at the end starts with the channel list at
    the beginning. *)
Theorem channels_only_appended (ops : list Run.op) (self : Chatroom.t) (w : World) :
  exists extra,
    channels (fst (Run.run ops self w)) = (channels self ++ extra)%list.
Proof.
  revert self w. induction ops as [|o rest IH]; intros self w.
  - exists []. rewrite app_nil_r. reflexivity.
  - cbn [Run.run]. pose proof (step_moves o self w) as (Hg & _).
    destruct (Run.step o self w) as [self' w']. cbn [fst] in Hg.
    destruct (grown_app _ _ Hg) as [e1 E1].
    destruct (IH self' w') as [e2 E2].
    exists (e1 ++ e2)%list. rewrite E2, E1, app_assoc. reflexivity.
Qed.

(** X12.  Over any sequence of calls the records of HTTP calls and of
    callbacks only grow, and the callbacks called since the beginning are
    never more than the HTTP calls made since then: a handler is only
    called in answer to a call that failed. *)
Theorem callbacks_answer_calls (ops : list Run.op) (self : Chatroom.t) (w : World) :
  let w' := snd (Run.run ops self w) in
  (exists new, calls w' = (calls w ++ new)%list) /\
  (exists new, invoked w' = (invoked w ++ new)%list) /\
  (List.length (invoked w') - List.length (invoked w)
   <= List.length (calls w') - List.length (calls w))%nat.
Proof.
  cbv zeta.
  assert (H : forall ops self w,
            let w' := snd (Run.run ops self w) in
            (exists new, calls w' = (calls w ++ new)%list) /\
            (exists new, invoked w' = (invoked w ++ new)%list) /\
            (List.length (invoked w') + List.length (calls w)
             <= List.length (invoked w) + List.length (calls w'))%nat).
  { clear. induction ops as [|o rest IH]; intros self w; cbv zeta.
    - cbn. repeat split; try (exists []; rewrite app_nil_r; reflexivity). lia.
    - cbn [Run.run].
      assert (Hs : let w1 := snd (Run.step o self w) in
                   (exists new, calls w1 = (calls w ++ new)%list) /\
                   (exists new, invoked w1 = (invoked w ++ new)%list) /\
                   (List.length (invoked w1) + List.length (calls w)
                    <= List.length (invoked w) + List.length (calls w1))%nat).
      { pose proof (step_ledger o self w) as Hl.
        destruct o; try (destruct Hl as (Hc & Hi & Hn & _);
                         repeat split; assumption).
        cbv zeta. cbn [Run.step]. unfold Run.after. rewrite subscribe_eq. cbn.
        repeat split; try (exists []; rewrite app_nil_r; reflexivity). lia. }
      destruct (Run.step o self w) as [self' w1]. cbn [snd] in Hs.
      destruct Hs as ((n1 & H1) & (i1 & I1) & L1).
      destruct (IH self' w1) as ((n2 & H2) & (i2 & I2) & L2).
      repeat split.
      + exists (n1 ++ n2)%list. rewrite H2, H1, app_assoc. reflexivity.
      + exists (i1 ++ i2)%list. rewrite I2, I1, app_assoc. reflexivity.
      + lia. }
  destruct (H ops self w) as (Hc & Hi & Hn). repeat split; try assumption. lia.
Qed.

(** X13.  [_is_looping] is never set.  On a chatroom made by the
    constructor it is [False] after any calls, so every subscription to an
    event other than ERROR and NETWORK_EXCEPTION starts one more polling
    thread, and nothing else starts one. *)
Theorem one_thread_per_subscription (url : string) (uid name : pyval)
    (session : Session) (ops : list Run.op) (w : World) :
  let '(self', w') := Run.run ops (Chatroom.__init__ url uid name session) w in
  _is_looping self' = false /\
  List.length (threads w') =
    (List.length (threads w) + loop_subscriptions ops)%nat.
Proof.
  assert (H : forall ops self w,
            _is_looping self = false ->
            _is_looping (fst (Run.run ops self w)) = false /\
            List.length (threads (snd (Run.run ops self w))) =
              (List.length (threads w) + loop_subscriptions ops)%nat).
  { clear. induction ops as [|o rest IH]; intros self w Hl.
    - cbn. split; [exact Hl|lia].
    - cbn [Run.run].
      pose proof (step_fixed o self w) as Hf.
      assert (Ht : List.length (threads (snd (Run.step o self w))) =
                   (List.length (threads w) +
                    match o with
                    | Run.Subscribe event _ => if starts_loop event then 1 else 0
                    | _ => 0
                    end)%nat).
      { pose proof (step_ledger o self w) as Hw.
        destruct o; try (destruct Hw as (_ & _ & _ & ->); cbn [snd]; lia).
        cbn [Run.step]. unfold Run.after. rewrite subscribe_eq. cbn [threads snd].
        rewrite Hl. cbn [negb andb].
        destruct (starts_loop event); [rewrite length_app; cbn|]; lia. }
      destruct (Run.step o self w) as [self' w1].
      unfold on_state, same, fixed_part in Hf. cbn [fst snd] in *.
      injection Hf as _ _ Hloop _.
      destruct (IH self' w1) as [Hloop' Hthreads]; [congruence|].
      split; [exact Hloop'|].
      rewrite Hthreads, Ht. destruct o; cbn [loop_subscriptions]; lia. }
  destruct (H ops (Chatroom.__init__ url uid name session) w eq_refl) as [H1 H2].
  destruct (Run.run _ _ w) as [self' w']. split; assumption.
Qed.

(** ** subscribe and _notify *)

Lemma Event_eqb_eq (a b : Event) : Event_eqb a b = true <-> a = b.
Proof. destruct a, b; cbn; split; congruence. Qed.

Lemma Event_eqb_refl (a : Event) : Event_eqb a a = true.
Proof. apply Event_eqb_eq. reflexivity. Qed.

Lemma Event_eqb_neq (a b : Event) : a <> b -> Event_eqb a b = false.
Proof.
  intros H. destruct (Event_eqb a b) eqn:E; [|reflexivity].
  apply Event_eqb_eq in E. contradiction.
Qed.

Lemma listeners_get_set_same (d : listeners) (event : Event) (cb : callback) :
  listeners_get (listeners_set d event cb) event = Some cb.
Proof.
  induction d as [|[e old] rest IH]; cbn.
  - rewrite Event_eqb_refl. reflexivity.
  - destruct (Event_eqb e event) eqn:E; cbn; rewrite E; [reflexivity|exact IH].
Qed.

Lemma listeners_get_set_other (d : listeners) (event other : Event) (cb : callback) :
  other <> event ->
  listeners_get (listeners_set d event cb) other = listeners_get d other.
Proof.
  intros Hne. induction d as [|[e old] rest IH]; cbn.
  - rewrite Event_eqb_neq by congruence. reflexivity.
  - destruct (Event_eqb e event) eqn:E; cbn.
    + apply Event_eqb_eq in E. subst e.
      rewrite Event_eqb_neq by congruence. reflexivity.
    + rewrite IH. reflexivity.
Qed.

Lemma listeners_set_keys (d : listeners) (event : Event) (cb : callback) :
  map fst (listeners_set d event cb) =
  if existsb (Event_eqb event) (map fst d) then map fst d
  else (map fst d ++ [event])%list.
Proof.
  induction d as [|[e old] rest IH]; cbn; [reflexivity|].
  destruct (Event_eqb e event) eqn:E.
  - apply Event_eqb_eq in E. subst e. rewrite Event_eqb_refl. reflexivity.
  - rewrite (Event_eqb_neq event e)
      by (intros ->; rewrite Event_eqb_refl in E; discriminate E).
    cbn. rewrite IH. destruct (existsb _ _); reflexivity.
Qed.

Lemma listeners_set_NoDup (d : listeners) (event : Event) (cb : callback) :
  NoDup (map fst d) -> NoDup (map fst (listeners_set d event cb)).
Proof.
  intros H. rewrite listeners_set_keys.
  destruct (existsb (Event_eqb event) (map fst d)) eqn:E; [exact H|].
  apply NoDup_app; [exact H|repeat constructor; intros []|].
  intros x Hx [->|[]].
  assert (existsb (Event_eqb x) (map fst d) = true)
    by (apply existsb_exists; exists x; split; [exact Hx|apply Event_eqb_refl]).
  congruence.
Qed.

Lemma listeners_set_twice (d : listeners) (event : Event) (cb1 cb2 : callback) :
  listeners_set (listeners_set d event cb1) event cb2 = listeners_set d event cb2.
Proof.
  induction d as [|[e old] rest IH]; cbn.
  - rewrite Event_eqb_refl. reflexivity.
  - destruct (Event_eqb e event) eqn:E; cbn; rewrite E; [reflexivity|].
    rewrite IH. reflexivity.
Qed.

(** X14.  One callback an event: a second [subscribe] to an event takes
    the place of the first, as if the first had not been made; the
    callbacks of the other events are the ones they were, and an event is
    never bound twice. *)
Theorem subscribe_last_wins (event : Event) (cb1 cb2 : callback)
    (self : Chatroom.t) (w : World) :
  let '(_, once, w1) := subscribe event cb1 self w in
  let '(_, twice, _) := subscribe event cb2 once w1 in
  listeners_get (_listeners twice) event = Some cb2 /\
  _listeners twice = listeners_set (_listeners self) event cb2 /\
  (forall other, other <> event ->
     listeners_get (_listeners twice) other = listeners_get (_listeners self) other) /\
  (NoDup (map fst (_listeners self)) -> NoDup (map fst (_listeners twice))).
Proof.
  rewrite subscribe_eq. cbv iota beta. rewrite subscribe_eq.
  cbn [_listeners set_listeners].
  rewrite listeners_set_twice.
  split; [apply listeners_get_set_same|]. split; [reflexivity|].
  split; [intros other Hne; apply listeners_get_set_other, Hne|].
  apply listeners_set_NoDup.
Qed.

Lemma subscribe_last_wins_witness :
  let '(_, once, w1) :=
    subscribe MSG_NEW (Mock.quiet 1)
      (set_listeners [(ERROR, Mock.quiet 7)]
         (Chatroom.__init__ "http://h" PNone PNone (Mock.always (Mock.ok PNone))))
      world0 in
  let '(_, twice, _) := subscribe MSG_NEW (Mock.quiet 2) once w1 in
  NoDup (map fst (_listeners twice)).
Proof.
  generalize (subscribe_last_wins MSG_NEW (Mock.quiet 1) (Mock.quiet 2)
                (set_listeners [(ERROR, Mock.quiet 7)]
                   (Chatroom.__init__ "http://h" PNone PNone
                      (Mock.always (Mock.ok PNone))))
                world0).
  destruct (subscribe MSG_NEW (Mock.quiet 1) _ world0) as [[r1 once] w1].
  destruct (subscribe MSG_NEW (Mock.quiet 2) once w1) as [[r2 twice] w2].
  intros (_ & _ & _ & H). apply H. cbn.
  repeat constructor. intros [].
Defined.

(** X15.  After [subscribe(event, cb)], [_notify(event, data)] calls [cb]
    with the data, once, and nothing else, and ends as that call does; for
    an event without a callback [_notify] does nothing. *)
Theorem subscribe_then_notify (event : Event) (cb : callback)
    (data : list pyval) (self : Chatroom.t) (w : World) :
  let '(_, self1, w1) := subscribe event cb self w in
  _notify event data self1 w1 =
    (match raised (NotifyCall cb data) with
     | None => Return tt
     | Some e => Raise e
     end, self1, called_back w1 (NotifyCall cb data)) /\
  forall other,
    listeners_get (_listeners self1) other = None ->
    _notify other data self1 w1 = (Return tt, self1, w1).
Proof.
  rewrite subscribe_eq. cbv iota beta. unfold _notify, bind, get.
  cbn [_listeners set_listeners]. rewrite listeners_get_set_same.
  split; [reflexivity|]. intros other ->. reflexivity.
Qed.

(** ** _update_channels, create_channel, login and create when things go wrong *)

Lemma ingest_stops (good : list pyval) (bad : pyval) (rest : list pyval)
    (cs : list Channel.t) (e : exn) (self : Chatroom.t) (w : World) :
  from_dicts good = Return cs ->
  Channel.from_dict bad = Raise e ->
  exists self',
    ingest (good ++ bad :: rest) self w = (Raise e, self', w) /\
    channels self' = merge (channels self) cs /\
    active_channel self' = active_channel self.
Proof.
  revert cs self. induction good as [|data good IH]; intros cs self Hgood Hbad.
  - injection Hgood as <-. exists self. cbn [app ingest].
    unfold bind at 1, lift. rewrite Hbad. repeat split.
  - cbn [from_dicts] in Hgood.
    destruct (Channel.from_dict data) as [c|] eqn:Ec; [|discriminate Hgood].
    destruct (from_dicts good) as [cs'|]; [|discriminate Hgood].
    injection Hgood as <-.
    cbn [app ingest merge]. unfold bind at 1, lift. rewrite Ec.
    unfold bind at 1, get. unfold bind at 1.
    destruct (Channel.member c (channels self)); cbn [negb].
    + unfold ret. apply IH; [reflexivity|exact Hbad].
    + unfold modify.
      destruct (IH cs' (set_channels (channels self ++ [c]) self) eq_refl Hbad)
        as (self' & E & Hc & Ha).
      exists self'. repeat split; assumption.
Qed.

(** X16.  When an item of the list given to [_update_channels] is not a
    channel object, the call raises at that item: the channels before it
    are in the list already, and the active channel is not chosen, so a
    chatroom can be left with channels and no active channel. *)
Theorem update_channels_stops_at_bad_item (good : list pyval) (bad : pyval)
    (rest : list pyval) (cs : list Channel.t) (e : exn)
    (self : Chatroom.t) (w : World) :
  truthy (user_id self) = true ->
  from_dicts good = Return cs ->
  Channel.from_dict bad = Raise e ->
  exists self',
    _update_channels (PList (good ++ bad :: rest)) self w = (Raise e, self', w) /\
    channels self' = merge (channels self) cs /\
    active_channel self' = active_channel self.
Proof.
  intros Hu Hgood Hbad.
  destruct (ingest_stops good bad rest cs e self w Hgood Hbad)
    as (self' & E & Hc & Ha).
  exists self'. split; [|split; assumption].
  unfold _update_channels. unfold bind at 1, get. rewrite Hu.
  cbn [negb is_none]. unfold update_from. unfold bind at 1, lift.
  cbn [iter]. unfold bind at 1. rewrite E. reflexivity.
Qed.

Lemma update_channels_stops_at_bad_item_witness :
  exists self',
    _update_channels (PList [Mock.general; PDict [("channelID", PStr "ch2")]])
      (set_user_id (PStr "u1")
         (Chatroom.__init__ "http://h" (PStr "c1") PNone
            (Mock.always (Mock.ok PNone))))
      world0 = (Raise (KeyError "channel_name"), self', world0) /\
    channels self' = [Mock.general_channel] /\
    active_channel self' = None.
Proof.
  apply (update_channels_stops_at_bad_item
           [Mock.general] (PDict [("channelID", PStr "ch2")]) []
           [Mock.general_channel] (KeyError "channel_name")
           (set_user_id (PStr "u1")
              (Chatroom.__init__ "http://h" (PStr "c1") PNone
                 (Mock.always (Mock.ok PNone))))
           world0); reflexivity.
Defined.

(** X17.  When the server accepts the channel and answers with a channel
    object, [create_channel] raises: [AssertionError] when nobody is
    logged in, and [TypeError] otherwise, as [_update_channels] is handed
    a [Channel] where it reads a dict.  The chatroom is left as it was;
    the channel exists on the server only. *)
Theorem create_channel_accepted_raises (channel_name : string)
    (self : Chatroom.t) (w w1 : World) (response : pyval) (c : Channel.t) :
  _request "post" (channel_args self channel_name) self w =
    (Return response, self, w1) ->
  is_none response = false ->
  Channel.from_dict response = Return c ->
  create_channel channel_name self w =
    (Raise (if truthy (user_id self)
            then TypeError "'Channel' object is not subscriptable"
            else AssertionError "Please log in before getting channels!"),
     self, w1).
Proof.
  intros Hreq Hnone Hc.
  unfold create_channel. unfold bind at 1, get. unfold bind at 1, lift.
  destruct (endpoint_resolved (endpoints self)) as (_ & _ & _ & _ & _ & ->).
  unfold bind at 1. unfold channel_args in Hreq. rewrite Hreq, Hnone.
  unfold bind at 1. rewrite Hc.
  unfold bind at 1, _update_channels. unfold bind at 1, get.
  destruct (truthy (user_id self)); reflexivity.
Qed.

Lemma create_channel_accepted_raises_witness :
  let self := set_user_id (PStr "u1")
                (Chatroom.__init__ "http://h" (PStr "c1") PNone
                   (Mock.always (Mock.ok Mock.general))) in
  create_channel "general" self world0 =
    (Raise (TypeError "'Channel' object is not subscriptable"), self,
     logged world0 "post" (channel_args self "general")).
Proof.
  cbv zeta.
  apply (create_channel_accepted_raises "general"
           (set_user_id (PStr "u1")
              (Chatroom.__init__ "http://h" (PStr "c1") PNone
                 (Mock.always (Mock.ok Mock.general))))
           world0 _ Mock.general Mock.general_channel); reflexivity.
Defined.

(** X18.  A login the server rejects, on a chatroom without an ERROR
    handler, raises [RuntimeError] with the status and the body text:
    [user_id] is not set and the channels are not asked for. *)
Theorem login_rejected_without_handler (user_id password : string)
    (self : Chatroom.t) (w : World) (method : nat -> ReqArgs.t -> reply)
    (response : Response) :
  session self "post" = AttrMethod method ->
  method (List.length (calls w)) (login_args self user_id password)
    = Responds response ->
  status_code response <> 200 ->
  listeners_get (_listeners self) ERROR = None ->
  login user_id password self w =
    (Raise (RuntimeError "POST" (status_code response) (text response)),
     self, logged w "post" (login_args self user_id password)).
Proof.
  intros Hm Hr Hs Hl.
  unfold login. unfold bind at 1, get. unfold bind at 1, lift.
  destruct (endpoint_resolved (endpoints self)) as (_ & _ & -> & _).
  unfold bind at 1. rewrite request_eq, Hm. cbv zeta.
  fold (login_args self user_id password). rewrite Hr.
  apply Z.eqb_neq in Hs. rewrite Hs, Hl. reflexivity.
Qed.

Lemma login_rejected_without_handler_witness :
  let self := Chatroom.__init__ "http://h" (PStr "c1") PNone
                (Mock.always (Responds Mock.not_found)) in
  login "u1" "pw" self world0 =
    (Raise (RuntimeError "POST" 404 "Not Found"), self,
     logged world0 "post" (login_args self "u1" "pw")).
Proof.
  cbv zeta.
  apply (login_rejected_without_handler "u1" "pw"
           (Chatroom.__init__ "http://h" (PStr "c1") PNone
              (Mock.always (Responds Mock.not_found)))
           world0 (fun _ _ => Responds Mock.not_found) Mock.not_found);
    try reflexivity.
  cbn. discriminate.
Defined.

Lemma create_on_rejection (username password : string)
    (self : Chatroom.t) (w : World) (method : nat -> ReqArgs.t -> reply)
    (response : Response) :
  session self "post" = AttrMethod method ->
  method (List.length (calls w)) (create_args self username password)
    = Responds response ->
  status_code response <> 200 ->
  create username password self w =
    match listeners_get (_listeners self) ERROR with
    | Some handler =>
        (handled (ErrorCall handler response "post"
                    (create_args self username password)),
         self,
         called_back (logged w "post" (create_args self username password))
           (ErrorCall handler response "post"
              (create_args self username password)))
    | None =>
        (Raise (RuntimeError "POST" (status_code response) (text response)),
         self, logged w "post" (create_args self username password))
    end.
Proof.
  intros Hm Hr Hs.
  unfold create. unfold bind at 1, get. unfold bind at 1, lift.
  destruct (endpoint_resolved (endpoints self)) as (_ & -> & _).
  unfold bind at 1. rewrite request_eq, Hm. cbv zeta.
  fold (create_args self username password). rewrite Hr.
  apply Z.eqb_neq in Hs. rewrite Hs.
  destruct (listeners_get (_listeners self) ERROR); [|reflexivity].
  unfold handled. destruct (raised _); reflexivity.
Qed.

(** X19.  A creation the server rejects, on a chatroom with an ERROR
    handler, calls the handler once with the response and returns [None],
    or raises what the handler raised: the chatroom is as it was, without
    identifier, user or channels, and one HTTP call was made. *)
Theorem create_rejected_with_handler (username password : string)
    (self : Chatroom.t) (w : World) (method : nat -> ReqArgs.t -> reply)
    (response : Response) (handler : callback) :
  session self "post" = AttrMethod method ->
  method (List.length (calls w)) (create_args self username password)
    = Responds response ->
  status_code response <> 200 ->
  listeners_get (_listeners self) ERROR = Some handler ->
  create username password self w =
    (match raised (ErrorCall handler response "post"
                     (create_args self username password)) with
     | None => Return PNone
     | Some e => Raise e
     end, self,
     called_back (logged w "post" (create_args self username password))
       (ErrorCall handler response "post"
          (create_args self username password))).
Proof.
  intros Hm Hr Hs Hl.
  rewrite (create_on_rejection username password self w method response Hm Hr Hs).
  rewrite Hl. reflexivity.
Qed.

Lemma create_rejected_with_handler_witness :
  let self := set_listeners [(ERROR, Mock.quiet 7)]
                (Chatroom.__init__ "http://h" PNone (PStr "x")
                   (Mock.always (Responds Mock.not_found))) in
  create "alice" "secret" self world0 =
    (Return PNone, self,
     called_back (logged world0 "post" (create_args self "alice" "secret"))
       (ErrorCall (Mock.quiet 7) Mock.not_found "post"
          (create_args self "alice" "secret"))).
Proof.
  cbv zeta.
  apply (create_rejected_with_handler "alice" "secret"
           (set_listeners [(ERROR, Mock.quiet 7)]
              (Chatroom.__init__ "http://h" PNone (PStr "x")
                 (Mock.always (Responds Mock.not_found))))
           world0 (fun _ _ => Responds Mock.not_found) Mock.not_found (Mock.quiet 7));
    try reflexivity.
  cbn. discriminate.
Defined.

(** ** Teacup *)

Lemma listeners_set_fresh (d : listeners) (event : Event) (cb : callback) :
  ~ In event (map fst d) -> listeners_set d event cb = (d ++ [(event, cb)])%list.
Proof.
  induction d as [|[e old] rest IH]; cbn; intros Hn; [reflexivity|].
  rewrite (Event_eqb_neq e event) by tauto.
  rewrite IH by tauto. reflexivity.
Qed.

(** What the loop over the global listeners does to a chatroom: it binds
    them one after the other, and makes no HTTP call. *)
Lemma subscribe_each_spec (items : listeners) (chat : Chatroom.t) (w : World) :
  exists chat' w',
    Teacup.subscribe_each items chat w = (Return tt, chat', w') /\
    _listeners chat' =
      fold_left (fun d item => listeners_set d (fst item) (snd item))
        items (_listeners chat) /\
    account chat' =
      (uid chat, url chat, name chat, interval chat, user_id chat,
       endpoints chat, _listeners chat', _is_looping chat) /\
    session chat' = session chat /\
    channels chat' = channels chat /\
    active_channel chat' = active_channel chat /\
    calls w' = calls w /\ invoked w' = invoked w.
Proof.
  revert chat w. induction items as [|[event cb] rest IH]; intros chat w.
  - exists chat, w. repeat split.
  - cbn [Teacup.subscribe_each fold_left fst snd]. unfold bind.
    rewrite subscribe_eq.
    match goal with
    | |- context [Teacup.subscribe_each rest ?c ?w0] =>
        destruct (IH c w0) as (chat' & w' & -> & Hl & Ha & Hs & Hc & Hact & Hcalls & Hinv)
    end.
    exists chat', w'. cbn in *. repeat split; assumption.
Qed.

Lemma fold_set_NoDup (items acc : listeners) :
  NoDup (map fst items) ->
  (forall e, In e (map fst items) -> ~ In e (map fst acc)) ->
  fold_left (fun d item => listeners_set d (fst item) (snd item)) items acc =
  (acc ++ items)%list.
Proof.
  revert acc. induction items as [|[event cb] rest IH]; intros acc Hnd Hdis.
  - cbn. rewrite app_nil_r. reflexivity.
  - cbn [fold_left fst snd map] in *. inversion Hnd as [|? ? Hnot Hrest]; subst.
    rewrite listeners_set_fresh by (apply Hdis; left; reflexivity).
    rewrite IH; [rewrite <- app_assoc; reflexivity|exact Hrest|].
    intros e He. rewrite map_app, in_app_iff. cbn.
    intros [H|[<-|[]]]; [apply (Hdis e); [right; exact He|exact H]|].
    apply Hnot, He.
Qed.

Lemma login_returns_user (user_id password : string) (self : Chatroom.t)
    (w : World) :
  let '(r, self', _) := login user_id password self w in
  forall v, r = Return v -> Chatroom.user_id self' = PStr user_id.
Proof.
  unfold login. unfold bind at 1, get. unfold bind at 1, lift.
  destruct (endpoint_resolved (endpoints self)) as (_ & _ & -> & _).
  unfold bind at 1. request_step r w'.
  destruct r as [response|e]; [|intros v H; discriminate H].
  unfold bind at 1, modify. unfold bind at 1.
  match goal with
  | |- context [_update_channels ?a ?s ?w0] =>
      destruct (update_channels_spec a s w0) as (r & s' & w2 & -> & Ha & _ & _)
  end.
  destruct r; intros v H; [|discriminate H].
  unfold account in Ha. injection Ha as _ _ _ _ Hu _ _ _. exact Hu.
Qed.

(** X20.  A chatroom that [Teacup.login] or [Teacup.create_chatroom]
    makes carries the global listeners, each event with its callback, and
    no other; the one [login] returns has the identifier it was asked for
    and the user that logged in. *)
Theorem teacup_chatroom_has_global_listeners (self : Teacup.t)
    (session : Session) (w : World) :
  NoDup (map fst (Teacup._global_listeners self)) ->
  (forall username password chatroom url,
     let '(r, chat, _) :=
       Teacup.login self session username password chatroom url w in
     _listeners chat = Teacup._global_listeners self /\
     forall c, r = Return c ->
       c = chat /\ uid c = PStr chatroom /\ user_id c = PStr username) /\
  (forall url name username password,
     let '(_, chat, _) :=
       Teacup.create_chatroom self session url name username password w in
     _listeners chat = Teacup._global_listeners self).
Proof.
  intros Hnd.
  assert (Hfold : forall chat,
            _listeners chat = [] ->
            fold_left (fun d item => listeners_set d (fst item) (snd item))
              (Teacup._global_listeners self) (_listeners chat) =
            Teacup._global_listeners self).
  { intros chat ->. rewrite fold_set_NoDup; [reflexivity|exact Hnd|].
    intros e _ []. }
  split.
  - intros username password chatroom url. unfold Teacup.login.
    destruct (subscribe_each_spec (Teacup._global_listeners self)
                (Chatroom.__init__ url (PStr chatroom) PNone session) w)
      as (chat1 & w1 & -> & Hl & Ha & _).
    rewrite Hfold in Hl by reflexivity.
    pose proof (step_listeners (Run.Login username password) chat1 w1) as Hsl.
    pose proof (step_identity (Run.Login username password) chat1 w1) as Hsi.
    pose proof (login_returns_user username password chat1 w1) as Hu.
    cbn [Run.step] in Hsl, Hsi. unfold on_state, same, Run.after in Hsl, Hsi.
    destruct (login username password chat1 w1) as [[r chat] w2].
    cbn [fst snd] in Hsl, Hsi.
    unfold account in Ha. cbn in Ha. injection Ha as Huid _ _ _ _ _ _.
    injection Hsi as Huid' _ _.
    destruct r as [v|e]; (split; [congruence|]); intros c Hc;
      [|discriminate Hc].
    injection Hc as <-. split; [reflexivity|]. split; [congruence|].
    apply (Hu v eq_refl).
  - intros url name username password. unfold Teacup.create_chatroom.
    destruct (subscribe_each_spec (Teacup._global_listeners self)
                (Chatroom.__init__ url PNone (PStr name) session) w)
      as (chat1 & w1 & -> & Hl & _).
    rewrite Hfold in Hl by reflexivity.
    pose proof (step_listeners (Run.Create username password) chat1 w1) as Hsl.
    cbn [Run.step] in Hsl. unfold on_state, same, Run.after in Hsl.
    destruct (create username password chat1 w1) as [[r chat] w2].
    cbn [fst snd] in Hsl.
    destruct r as [v|e]; [destruct (is_none v)|]; congruence.
Qed.

Lemma teacup_chatroom_has_global_listeners_witness :
  let '(tc, w) :=
    subscribe_alls [(ERROR, Mock.quiet 7); (MSG_NEW, Mock.quiet 1); (ERROR, Mock.quiet 8)]
      Teacup.__init__ world0 in
  let '(_, chat, _) :=
    Teacup.login tc (Mock.always (Mock.ok (PList []))) "u1" "pw" "c1" "http://h" w in
  _listeners chat = [(ERROR, Mock.quiet 8); (MSG_NEW, Mock.quiet 1)].
Proof.
  destruct (subscribe_alls _ _ _) as [tc w] eqn:E.
  vm_compute in E. injection E as <- <-.
  destruct (teacup_chatroom_has_global_listeners
              {| Teacup.chatrooms := [];
                 Teacup._global_listeners := [(ERROR, Mock.quiet 8); (MSG_NEW, Mock.quiet 1)] |}
              (Mock.always (Mock.ok (PList []))) world0) as [H _].
  - cbn. repeat constructor; cbn; intuition discriminate.
  - specialize (H "u1" "pw" "c1" "http://h").
    destruct (Teacup.login _ _ _ _ _ _ _) as [[r chat] w'].
    apply H.
Defined.



Lemma py_eq_str (v : pyval) (s : string) :
  py_eq v (PStr s) = true <-> v = PStr s.
Proof.
  destruct v; cbn; try (split; discriminate).
  rewrite String.eqb_eq. split; congruence.
Qed.

(** X22.  [get_chatroom(name)] gives the first chatroom of the list whose
    name is [name], and [None] exactly when no chatroom has that name. *)
Theorem get_chatroom_first (rooms : list Chatroom.t) (wanted : string) :
  match Teacup.get_chatroom rooms wanted with
  | Some c =>
      exists before after,
        rooms = (before ++ c :: after)%list /\
        name c = PStr wanted /\
        Forall (fun r => name r <> PStr wanted) before
  | None => Forall (fun r => name r <> PStr wanted) rooms
  end.
Proof.
  induction rooms as [|r rest IH]; cbn [Teacup.get_chatroom]; [constructor|].
  destruct (py_eq (name r) (PStr wanted)) eqn:E.
  - apply py_eq_str in E. exists [], rest. repeat split; [exact E|constructor].
  - assert (Hr : name r <> PStr wanted)
      by (intros H; apply py_eq_str in H; congruence).
    destruct (Teacup.get_chatroom rest wanted) as [c|].
    + destruct IH as (before & after & -> & Hn & Hb).
      exists (r :: before), after. repeat split; [exact Hn|].
      constructor; assumption.
    + constructor; assumption.
Qed.

(** X23.  When the server rejects the creation, [create_chatroom] calls
    the global ERROR handler with the response, if there is such a
    handler, and returns [None], or raises what the handler raised; it
    raises [RuntimeError] if there is no handler.  Either way the chatroom
    it made has no identifier and no user. *)
Theorem create_chatroom_rejected (self : Teacup.t) (session : Session)
    (url name username password : string) (w : World)
    (method : nat -> ReqArgs.t -> reply) (response : Response) :
  NoDup (map fst (Teacup._global_listeners self)) ->
  session "post" = AttrMethod method ->
  method (List.length (calls w))
    (create_args (Chatroom.__init__ url PNone (PStr name) session)
       username password) = Responds response ->
  status_code response <> 200 ->
  let '(r, chat, w') :=
    Teacup.create_chatroom self session url name username password w in
  uid chat = PNone /\ user_id chat = PNone /\ channels chat = [] /\
  match listeners_get (Teacup._global_listeners self) ERROR with
  | Some handler =>
      match raised
              (ErrorCall handler response "post"
                 (create_args (Chatroom.__init__ url PNone (PStr name) session)
                    username password)) with
      | None => r = Return None
      | Some e => r = Raise e
      end /\
      invoked w' =
        (invoked w ++
         [ErrorCall handler response "post"
            (create_args (Chatroom.__init__ url PNone (PStr name) session)
               username password)])%list
  | None =>
      r = Raise (RuntimeError "POST" (status_code response) (text response)) /\
      invoked w' = invoked w
  end.
Proof.
  intros Hnd Hm Hr Hs. unfold Teacup.create_chatroom.
  destruct (subscribe_each_spec (Teacup._global_listeners self)
              (Chatroom.__init__ url PNone (PStr name) session) w)
    as (chat1 & w1 & -> & Hl & Ha & Hses & Hch & _ & Hcalls & Hinv).
  rewrite fold_set_NoDup in Hl; [|exact Hnd|intros e _ []].
  cbn in Hl, Ha, Hses, Hch.
  unfold account in Ha. injection Ha as Huid _ Hname _ Huser Hend _.
  assert (Hargs : create_args chat1 username password =
                  create_args (Chatroom.__init__ url PNone (PStr name) session)
                    username password)
    by (unfold create_args; rewrite Hend, Hname; reflexivity).
  rewrite (create_on_rejection username password chat1 w1 method response);
    [|rewrite Hses; exact Hm|rewrite Hcalls, Hargs; exact Hr|exact Hs].
  rewrite Hl, Hargs.
  destruct (listeners_get (Teacup._global_listeners self) ERROR) as [handler|].
  - unfold handled. destruct (raised _);
      cbn; rewrite ?Hinv; repeat split; assumption.
  - cbn; rewrite ?Hinv; repeat split; assumption.
Qed.

Lemma create_chatroom_rejected_witness :
  let '(r, chat, w') :=
    Teacup.create_chatroom
      {| Teacup.chatrooms := [];
         Teacup._global_listeners := [(ERROR, Mock.quiet 7)] |}
      (Mock.always (Responds Mock.not_found))
      "http://h" "x" "alice" "secret" world0 in
  r = Return None /\ List.length (invoked w') = 1%nat.
Proof.
  generalize (create_chatroom_rejected
                {| Teacup.chatrooms := [];
                   Teacup._global_listeners := [(ERROR, Mock.quiet 7)] |}
                (Mock.always (Responds Mock.not_found))
                "http://h" "x" "alice" "secret" world0
                (fun _ _ => Responds Mock.not_found) Mock.not_found).
  destruct (Teacup.create_chatroom _ _ _ _ _ _ _) as [[r chat] w'].
  intros H.
  destruct H as (_ & _ & _ & Hr & Hi).
  - cbn. repeat constructor. intros [].
  - reflexivity.
  - reflexivity.
  - cbn. discriminate.
  - split; [exact Hr|]. rewrite Hi. reflexivity.
Defined.

(** ** Fetching the same channels again *)

Lemma dict_get_In (d : list (string * pyval)) (k : string) (v : pyval) :
  unique_keys (map fst d) = true -> In (k, v) d -> dict_get k d = Some v.
Proof.
  induction d as [|[k' v'] rest IH]; cbn; intros Hu Hin; [destruct Hin|].
  apply andb_prop in Hu as [Hfresh Hu].
  destruct Hin as [H|H].
  - injection H as -> ->. rewrite String.eqb_refl. reflexivity.
  - destruct (String.eqb_spec k' k) as [->|_]; [|apply IH; assumption].
    exfalso. apply negb_true_iff in Hfresh.
    assert (existsb (String.eqb k) (map fst rest) = true); [|congruence].
    apply existsb_exists. exists k. split; [|apply String.eqb_refl].
    apply (in_map fst _ _ H).
Qed.

Lemma dict_get_wf (d : list (string * pyval)) (k : string) (v : pyval) :
  forallb (fun kv => wf (snd kv)) d = true -> dict_get k d = Some v -> wf v = true.
Proof.
  induction d as [|[k' v'] rest IH]; cbn; intros Hw Hg; [discriminate Hg|].
  apply andb_prop in Hw as [Hv Hw].
  destruct (String.eqb k' k); [injection Hg as <-; exact Hv|apply IH; assumption].
Qed.

Lemma py_eq_refl : forall v, wf v = true -> py_eq v v = true.
Proof.
  fix IH 1. intros [| b | z | s | b | l | d | u n p m] H; cbn in *.
  - reflexivity.
  - destruct b; reflexivity.
  - apply Z.eqb_refl.
  - apply String.eqb_refl.
  - apply String.eqb_refl.
  - induction l as [|x r IHl]; [reflexivity|].
    cbn in H. apply andb_prop in H as [Hx Hr].
    rewrite (IH x Hx). exact (IHl Hr).
  - apply andb_prop in H as [Hu Hw].
    rewrite Nat.eqb_refl. cbn [andb].
    assert (G : forall whole,
              (forall k v, In (k, v) d -> dict_get k whole = Some v) ->
              (fix eq_items (d0 : list (string * pyval)) : bool :=
                 match d0 with
                 | [] => true
                 | (k, v) :: rest =>
                     match dict_get k whole with
                     | Some v' => py_eq v v' && eq_items rest
                     | None => false
                     end
                 end) d = true).
    { clear Hu. induction d as [|[k v] rest IHd]; intros whole Hin; [reflexivity|].
      cbn in Hw. apply andb_prop in Hw as [Hv Hw].
      rewrite (Hin k v (or_introl eq_refl)), (IH v Hv). cbn [andb].
      apply IHd; [exact Hw|]. intros k' v' H'. apply Hin. right. exact H'. }
    apply G. intros k v Hin. apply dict_get_In; assumption.
  - apply andb_prop in H as [H Hm]. apply andb_prop in H as [H Hp].
    apply andb_prop in H as [Hu Hn].
    rewrite (IH u Hu), (IH n Hn), (IH p Hp), (IH m Hm). reflexivity.
Qed.

Lemma from_dict_wf (data : pyval) (c : Channel.t) :
  wf data = true -> Channel.from_dict data = Return c ->
  wf (Channel.to_val c) = true.
Proof.
  unfold Channel.from_dict. destruct data as [| | | | | |d|]; try discriminate.
  cbn [getitem wf]. intros Hw. apply andb_prop in Hw as [_ Hw].
  destruct (dict_get "channelID" d) as [u|] eqn:E1; [|discriminate].
  destruct (dict_get "channel_name" d) as [n|] eqn:E2; [|discriminate].
  destruct (dict_get "public" d) as [p|] eqn:E3; [|discriminate].
  destruct (dict_get "permissions" d) as [m|] eqn:E4; [|discriminate].
  intros H. injection H as <-. cbn.
  rewrite (dict_get_wf d _ _ Hw E1), (dict_get_wf d _ _ Hw E2),
    (dict_get_wf d _ _ Hw E3), (dict_get_wf d _ _ Hw E4). reflexivity.
Qed.

Lemma from_dicts_wf (items : list pyval) (cs : list Channel.t) :
  forallb wf items = true -> from_dicts items = Return cs ->
  Forall (fun c => wf (Channel.to_val c) = true) cs.
Proof.
  revert cs. induction items as [|data rest IH]; cbn; intros cs Hw H.
  - injection H as <-. constructor.
  - apply andb_prop in Hw as [Hd Hw].
    destruct (Channel.from_dict data) as [c|] eqn:Ec; [|discriminate H].
    destruct (from_dicts rest) as [cs'|]; [|discriminate H].
    injection H as <-. constructor; [eapply from_dict_wf; eauto|apply IH; auto].
Qed.

Lemma member_app (c : Channel.t) (l extra : list Channel.t) :
  Channel.member c l = true -> Channel.member c (l ++ extra) = true.
Proof.
  unfold Channel.member. rewrite existsb_app. intros ->. reflexivity.
Qed.

Lemma member_merge (c : Channel.t) (l new : list Channel.t) :
  Channel.member c l = true -> Channel.member c (merge l new) = true.
Proof.
  revert l. induction new as [|x rest IH]; intros l H; [exact H|].
  cbn [merge]. apply IH. destruct (Channel.member x l); [exact H|].
  apply member_app, H.
Qed.

Lemma merge_members (l new : list Channel.t) :
  Forall (fun c => wf (Channel.to_val c) = true) new ->
  Forall (fun c => Channel.member c (merge l new) = true) new.
Proof.
  revert l. induction new as [|x rest IH]; intros l Hw; [constructor|].
  inversion Hw as [|? ? Hx Hrest]; subst. cbn [merge].
  constructor; [|apply IH, Hrest].
  apply member_merge.
  destruct (Channel.member x l) eqn:E; [exact E|].
  unfold Channel.member. rewrite existsb_app. cbn [existsb].
  unfold Channel.eqb. rewrite (py_eq_refl _ Hx).
  rewrite orb_true_r. reflexivity.
Qed.

Lemma merge_nothing_new (l new : list Channel.t) :
  Forall (fun c => Channel.member c l = true) new -> merge l new = l.
Proof.
  induction 1 as [|x rest Hx _ IH]; [reflexivity|].
  cbn [merge]. rewrite Hx. exact IH.
Qed.

(** X24.  Fetching the same channels again adds nothing: after
    [_update_channels] has taken in a list of channel objects, taking in
    the same list again leaves the channel list and the active channel as
    they are.  (The objects are as JSON gives them, each key once.) *)
Theorem update_channels_again (items : list pyval) (cs : list Channel.t)
    (self : Chatroom.t) (w : World) :
  truthy (user_id self) = true ->
  forallb wf items = true ->
  from_dicts items = Return cs ->
  exists self1 self2,
    _update_channels (PList items) self w = (Return PNone, self1, w) /\
    _update_channels (PList items) self1 w = (Return PNone, self2, w) /\
    channels self1 = merge (channels self) cs /\
    channels self2 = channels self1 /\
    active_channel self2 = active_channel self1.
Proof.
  intros Hu Hw Hcs.
  assert (Hup : forall s, truthy (user_id s) = true ->
                  _update_channels (PList items) s w = update_from (PList items) s w).
  { intros s Hs. unfold _update_channels. unfold bind at 1, get.
    rewrite Hs. reflexivity. }
  destruct (update_from_spec (PList items) self w)
    as (r1 & self1 & E1 & Ha1 & _ & _ & Hx1).
  destruct (Hx1 items cs eq_refl Hcs) as (-> & Hc1 & Hact1).
  assert (Hu1 : truthy (user_id self1) = true).
  { unfold account in Ha1. injection Ha1 as _ _ _ _ Huser _ _ _.
    rewrite Huser. exact Hu. }
  destruct (update_from_spec (PList items) self1 w)
    as (r2 & self2 & E2 & _ & _ & _ & Hx2).
  destruct (Hx2 items cs eq_refl Hcs) as (-> & Hc2 & Hact2).
  exists self1, self2.
  rewrite (Hup self Hu), (Hup self1 Hu1), E1, E2.
  assert (Hsame : merge (channels self1) cs = channels self1).
  { apply merge_nothing_new. rewrite Hc1.
    apply merge_members, (from_dicts_wf items cs Hw Hcs). }
  rewrite Hsame in Hc2, Hact2.
  repeat split; try assumption.
  rewrite Hact2. destruct (active_channel self1) eqn:E; [reflexivity|].
  destruct (active_channel self); [discriminate Hact1|].
  rewrite Hc1. symmetry. exact Hact1.
Qed.

Lemma update_channels_again_witness :
  exists self1 self2,
    _update_channels (PList [Mock.general; Mock.renamed])
      (set_user_id (PStr "u1")
         (Chatroom.__init__ "http://h" (PStr "c1") PNone
            (Mock.always (Mock.ok PNone)))) world0 =
      (Return PNone, self1, world0) /\
    _update_channels (PList [Mock.general; Mock.renamed]) self1 world0 =
      (Return PNone, self2, world0) /\
    channels self1 = [Mock.general_channel; Mock.renamed_channel] /\
    channels self2 = channels self1 /\
    active_channel self2 = active_channel self1.
Proof.
  apply (update_channels_again [Mock.general; Mock.renamed]
           [Mock.general_channel; Mock.renamed_channel]
           (set_user_id (PStr "u1")
              (Chatroom.__init__ "http://h" (PStr "c1") PNone
                 (Mock.always (Mock.ok PNone)))) world0); reflexivity.
Defined.

(** ** More instances *)

Lemma endpoint_set_uid_then_resolve_witness :
  exists e',
    EndpointContainer.set (EndpointContainer.__init__ "http://h" PNone)
      "uid" (PStr "c1") = Return e' /\
    EndpointContainer.__getattr__ e' "channels" =
      Return "http://h/api/v0/channels/c1".
Proof.
  destruct (endpoint_set_uid_then_resolve
              (EndpointContainer.__init__ "http://h" PNone) (PStr "c1"))
    as (e' & Hset & _ & H).
  exists e'. split; [exact Hset|].
  apply (H "channels" "/channels/"). cbn. tauto.
Defined.

Lemma channel_from_dict_iff_witness :
  Channel.from_dict
    (PDict [("permissions", PDict []); ("public", PBool false);
            ("extra", PInt 1);
            ("channel_name", PStr "dev"); ("channelID", PStr "ch2")]) =
  Return {| Channel.uid := PStr "ch2"; Channel.name := PStr "dev";
            Channel.public := PBool false; Channel.permissions := PDict [] |}.
Proof.
  destruct (channel_from_dict_iff
              (PDict [("permissions", PDict []); ("public", PBool false);
                      ("extra", PInt 1);
                      ("channel_name", PStr "dev"); ("channelID", PStr "ch2")])
              {| Channel.uid := PStr "ch2"; Channel.name := PStr "dev";
                 Channel.public := PBool false;
                 Channel.permissions := PDict [] |}) as [[_ H] _].
  apply H. eexists. repeat split.
Defined.

Lemma get_color_returns_iff_witness :
  User.get_color
    {| User.uid := PStr "u1"; User.username := PStr "alice";
       User.color := PDict [("r", PStr "255"); ("g", PStr "0"); ("b", PStr "7")] |} =
  Return "255;0;7".
Proof.
  apply (get_color_returns_iff
           {| User.uid := PStr "u1"; User.username := PStr "alice";
              User.color :=
                PDict [("r", PStr "255"); ("g", PStr "0"); ("b", PStr "7")] |}
           "255;0;7").
  exists [("r", PStr "255"); ("g", PStr "0"); ("b", PStr "7")], ["255"; "0"; "7"].
  repeat split.
Defined.

Lemma subscribe_then_notify_witness :
  let '(_, self1, w1) :=
    subscribe MSG_NEW (Mock.quiet 1)
      (Chatroom.__init__ "http://h" PNone PNone (Mock.always (Mock.ok PNone)))
      world0 in
  _notify MSG_DEL [PStr "m"] self1 w1 = (Return tt, self1, w1) /\
  invoked (snd (_notify MSG_NEW [PStr "m"] self1 w1)) =
    [NotifyCall (Mock.quiet 1) [PStr "m"]].
Proof.
  generalize (subscribe_then_notify MSG_NEW (Mock.quiet 1) [PStr "m"]
                (Chatroom.__init__ "http://h" PNone PNone
                   (Mock.always (Mock.ok PNone))) world0).
  destruct (subscribe MSG_NEW (Mock.quiet 1) _ world0) as [[r self1] w1] eqn:E.
  intros [Hn Ho]. split.
  - apply Ho. rewrite subscribe_eq in E. injection E as _ <- _. reflexivity.
  - rewrite Hn. rewrite subscribe_eq in E. injection E as _ _ <-. reflexivity.
Defined.

